(** * homework.py: a fitness-tracker calculation layer

    A shallow embedding of [homework.py]: the [InfoMessage] record and its
    renderer, the [Training] class with its three subclasses [Running],
    [SportsWalking] and [Swimming], the factory [read_package], the driver
    [main] and the loop of the script.

    - Numbers are modelled as they are at run time: an [int] is an unbounded
      integer ([Z]) and a [float] is an IEEE-754 binary64 value, here a
      [spec_float] of the Standard Library (precision 53, exponent bound
      1024) with its correctly rounded operations.  The arguments of the
      constructors are numbers of either kind, as the type hints and the
      packages of the script have them.
    - Exceptions are a result type.
    - An instance is its class and its attribute dictionary; the attributes
      of [self] and the text printed so far are an explicit state that
      every method threads, so that a method could assign to [self]: that
      none does is a theorem, not a feature of the types.
    - A [str] is the byte string of its UTF-8 encoding.
    - The power [x ** 2] of a float goes to the C library's [pow]; the
      classes take it as a parameter, and the theorems hold for every
      [pow]. *)

From Stdlib Require Import ZArith List String Ascii Bool Lia.
From Stdlib Require Import SpecFloat DecimalString.
Import ListNotations.

Local Open Scope string_scope.
Local Open Scope Z_scope.

(** ** Exceptions and results *)

Inductive exn : Type :=
| ZeroDivisionError
| OverflowError
| NotImplementedError
| TypeError
| AttributeError (name : string)
| ValueError (msg : string).

Inductive result (A : Type) : Type :=
| Ok (a : A)
| Raise (e : exn).

Arguments Ok {A} a.
Arguments Raise {A} e.

Definition rbind {A B : Type} (r : result A) (k : A -> result B) : result B :=
  match r with
  | Ok a => k a
  | Raise e => Raise e
  end.

Declare Scope result_scope.
Delimit Scope result_scope with result.
Notation "x <- r ;; k" := (rbind r (fun x => k))
  (at level 61, r at next level, right associativity) : result_scope.

(** ** binary64 *)

Module F64.

Definition prec : Z := 53.
Definition emax : Z := 1024.

Definition float : Type := spec_float.

Definition add : float -> float -> float := SFadd prec emax.
Definition sub : float -> float -> float := SFsub prec emax.
Definition mul : float -> float -> float := SFmul prec emax.
Definition div : float -> float -> float := SFdiv prec emax.
Definition opp : float -> float := SFopp.
Definition abs : float -> float := SFabs.
Definition ltb : float -> float -> bool := SFltb.
Definition eqb : float -> float -> bool := SFeqb.

(** An integer read as a (not yet rounded) binary number. *)
Definition exact_Z (z : Z) : float :=
  match z with
  | Z0 => S754_zero false
  | Zpos p => S754_finite false p 0
  | Zneg p => S754_finite true p 0
  end.

(** The binary64 nearest to the integer [z], ties to even. *)
Definition of_Z (z : Z) : float := binary_normalize prec emax z 0 false.

(** The binary64 nearest to the fraction [n / d], ties to even: how a
    decimal literal such as [0.65] (65 / 100) is read. *)
Definition literal (n d : Z) : float := div (exact_Z n) (exact_Z d).

Definition zero : float := S754_zero false.
Definition one : float := of_Z 1.
Definition two : float := of_Z 2.
Definition half : float := literal 1 2.

Definition is_zero (x : float) : bool :=
  match x with S754_zero _ => true | _ => false end.

Definition is_nan (x : float) : bool :=
  match x with S754_nan => true | _ => false end.

Definition is_inf (x : float) : bool :=
  match x with S754_infinity _ => true | _ => false end.

Definition is_finite (x : float) : bool :=
  match x with S754_zero _ | S754_finite _ _ _ => true | _ => false end.

Definition signbit (x : float) : bool :=
  match x with
  | S754_zero s | S754_infinity s | S754_finite s _ _ => s
  | S754_nan => false
  end.

(** C's [fmod]: the exact remainder of [x / y], with the sign of [x]. *)
Definition fmod (x y : float) : float :=
  match x, y with
  | S754_nan, _ | _, S754_nan => S754_nan
  | S754_infinity _, _ => S754_nan
  | _, S754_zero _ => S754_nan
  | _, S754_infinity _ => x
  | S754_zero _, _ => x
  | S754_finite sx mx ex, S754_finite _ my ey =>
      let e := Z.min ex ey in
      let r := Z.rem (Z.shiftl (Zpos mx) (ex - e)) (Z.shiftl (Zpos my) (ey - e)) in
      match r with
      | Z0 => S754_zero sx
      | _ => binary_normalize prec emax (cond_Zopp sx r) e sx
      end
  end.

(** C's [floor]: the largest integral value not above [x]. *)
Definition floor (x : float) : float :=
  match x with
  | S754_finite s m e =>
      if 0 <=? e then x
      else
        let q := Z.shiftr (Zpos m) (- e) in
        let exact := Z.shiftl q (- e) =? Zpos m in
        let n := if s then (if exact then - q else - (q + 1)) else q in
        binary_normalize prec emax n 0 s
  | _ => x
  end.

(** [copysign(0.0, x)]. *)
Definition zero_with_sign_of (x : float) : float := S754_zero (signbit x).

End F64.

(** ** Python numbers

    A run-time number is an [int] or a [float].  Arithmetic between two
    ints stays in the integers (true division apart); as soon as one
    operand is a float the other is converted, left operand first, and the
    conversion of an int too large for binary64 raises [OverflowError]. *)

Inductive num : Type :=
| PyInt (z : Z)
| PyFloat (f : F64.float).

Module Py.

Local Open Scope result_scope.

Definition int_to_float (z : Z) : result F64.float :=
  let f := F64.of_Z z in
  if F64.is_inf f then Raise OverflowError else Ok f.

Definition to_float (a : num) : result F64.float :=
  match a with
  | PyInt z => int_to_float z
  | PyFloat f => Ok f
  end.

(** [a * b] *)
Definition mul (a b : num) : result num :=
  match a, b with
  | PyInt x, PyInt y => Ok (PyInt (x * y))
  | _, _ =>
      x <- to_float a ;; y <- to_float b ;; Ok (PyFloat (F64.mul x y))
  end.

(** [a + b] *)
Definition add (a b : num) : result num :=
  match a, b with
  | PyInt x, PyInt y => Ok (PyInt (x + y))
  | _, _ =>
      x <- to_float a ;; y <- to_float b ;; Ok (PyFloat (F64.add x y))
  end.

(** [a - b] *)
Definition sub (a b : num) : result num :=
  match a, b with
  | PyInt x, PyInt y => Ok (PyInt (x - y))
  | _, _ =>
      x <- to_float a ;; y <- to_float b ;; Ok (PyFloat (F64.sub x y))
  end.

(** [x / y] on two ints: the correctly rounded quotient. *)
Definition int_true_divide (x y : Z) : result F64.float :=
  if y =? 0 then Raise ZeroDivisionError
  else
    let q := F64.div (F64.exact_Z x) (F64.exact_Z y) in
    if F64.is_inf q then Raise OverflowError else Ok q.

(** [a / b]: always a float; a zero divisor raises, an overflowing
    float quotient is an infinity. *)
Definition truediv (a b : num) : result num :=
  match a, b with
  | PyInt x, PyInt y => q <- int_true_divide x y ;; Ok (PyFloat q)
  | _, _ =>
      x <- to_float a ;; y <- to_float b ;;
      if F64.is_zero y then Raise ZeroDivisionError
      else Ok (PyFloat (F64.div x y))
  end.

(** [vx // wx] on floats: the quotient part of the interpreter's
    float divmod ([fmod], then the quotient snapped to an integral
    value). *)
Definition float_floor_div (vx wx : F64.float) : result F64.float :=
  if F64.is_zero wx then Raise ZeroDivisionError
  else
    let md := F64.fmod vx wx in
    let dv := F64.div (F64.sub vx md) wx in
    let dv :=
      if negb (F64.is_zero md)
      then if xorb (F64.ltb wx F64.zero) (F64.ltb md F64.zero)
           then F64.sub dv F64.one else dv
      else dv in
    if negb (F64.is_zero dv)
    then
      let fl := F64.floor dv in
      Ok (if F64.ltb F64.half (F64.sub dv fl) then F64.add fl F64.one else fl)
    else Ok (F64.zero_with_sign_of (F64.div vx wx)).

(** [a // b] *)
Definition floordiv (a b : num) : result num :=
  match a, b with
  | PyInt x, PyInt y =>
      if y =? 0 then Raise ZeroDivisionError else Ok (PyInt (x / y))
  | _, _ =>
      x <- to_float a ;; y <- to_float b ;;
      q <- float_floor_div x y ;; Ok (PyFloat q)
  end.

(** [iv ** 2.0] on floats.  The special cases are settled by the
    interpreter; a finite positive base other than 1 goes to the C
    library's [pow], here [libm_pow], which returns its value and whether
    it reported a range error.  An infinite value counts as a range
    error, a range error with a zero value (underflow) is dropped, and a
    remaining range error is an [OverflowError]. *)
Definition float_pow_2 (libm_pow : F64.float -> F64.float -> F64.float * bool)
    (iv : F64.float) : result F64.float :=
  if F64.is_nan iv then Ok iv
  else if F64.is_inf iv then Ok (F64.abs iv)
  else if F64.is_zero iv then Ok F64.zero
  else
    let iv := if F64.ltb iv F64.zero then F64.opp iv else iv in
    if F64.eqb iv F64.one then Ok F64.one
    else
      let '(ix, erange) := libm_pow iv F64.two in
      let erange :=
        if erange then negb (F64.is_zero ix) else F64.is_inf ix in
      if erange then Raise OverflowError else Ok ix.

(** [a ** 2], the exponent being the int literal [2]. *)
Definition pow_2 (libm_pow : F64.float -> F64.float -> F64.float * bool)
    (a : num) : result num :=
  match a with
  | PyInt x => Ok (PyInt (x ^ 2))
  | PyFloat f => r <- float_pow_2 libm_pow f ;; Ok (PyFloat r)
  end.

(** A C library whose [pow] is correctly rounded on squares, the only
    powers this program takes. *)
Definition libm_pow_ieee (x y : F64.float) : F64.float * bool :=
  if F64.eqb y F64.two then (F64.mul x x, false) else (S754_nan, false).

(** *** Formatting with [.3f] *)

(** [|x| * 1000] rounded to the nearest integer, ties to even, for the
    finite [|x| = m * 2^e]. *)
Definition thousandths (m : positive) (e : Z) : Z :=
  if 0 <=? e then Z.shiftl (Zpos m * 1000) e
  else
    let d := Z.shiftl 1 (- e) in
    let q := (Zpos m * 1000) / d in
    let r := (Zpos m * 1000) mod d in
    match 2 * r ?= d with
    | Lt => q
    | Gt => q + 1
    | Eq => if Z.even q then q else q + 1
    end.

Definition digit (n : Z) : ascii := ascii_of_N (48 + Z.to_N n).

Definition decimal (n : Z) : string :=
  NilZero.string_of_uint (N.to_uint (Z.to_N n)).

(** Sign, integer part, point and three digits of [n] thousandths. *)
Definition fixed_3 (neg : bool) (n : Z) : string :=
  (if neg then "-" else "") ++ decimal (n / 1000) ++ "."
    ++ String (digit (n / 100 mod 10))
         (String (digit (n / 10 mod 10))
            (String (digit (n mod 10)) "")).

Definition format_float_3f (x : F64.float) : string :=
  match x with
  | S754_nan => "nan"
  | S754_infinity s => if s then "-inf" else "inf"
  | S754_zero s => fixed_3 s 0
  | S754_finite s m e => fixed_3 s (thousandths m e)
  end.

(** [format(a, '.3f')]: an int is converted to a float first. *)
Definition format_3f (a : num) : result string :=
  x <- to_float a ;; Ok (format_float_3f x).

(** [a > 0] *)
Definition positive (a : num) : bool :=
  match a with
  | PyInt z => 0 <? z
  | PyFloat f => F64.ltb F64.zero f
  end.

(** [a == 0] *)
Definition is_zero (a : num) : bool :=
  match a with
  | PyInt z => z =? 0
  | PyFloat f => F64.is_zero f
  end.

End Py.

(** ** Objects

    An instance carries its class and its own attribute dictionary; the
    class attributes ([LEN_STEP], [M_IN_KM], the calorie coefficients) live
    in the class namespaces and are found through the method resolution
    order. *)

Inductive class : Type :=
| Training
| Running
| SportsWalking
| Swimming.

Record object : Type := mkObject {
  ob_type : class;
  ob_dict : list (string * num)
}.

Definition class_name (c : class) : string :=
  match c with
  | Training => "Training"
  | Running => "Running"
  | SportsWalking => "SportsWalking"
  | Swimming => "Swimming"
  end.

Definition class_dict (c : class) : list (string * num) :=
  match c with
  | Training =>
      [("LEN_STEP", PyFloat (F64.literal 65 100));
       ("M_IN_KM", PyInt 1000);
       ("MIN_IN_HOUR", PyInt 60)]
  | Running =>
      [("MET_COEFF_RUN_1", PyInt 18);
       ("MET_COEFF_RUN_2", PyInt 20)]
  | SportsWalking =>
      [("MET_COEFF_WLK_1", PyFloat (F64.literal 35 1000));
       ("MET_COEFF_WLK_2", PyFloat (F64.literal 29 1000))]
  | Swimming =>
      [("LEN_STEP", PyFloat (F64.literal 138 100));
       ("MET_COEFF_SWM_1", PyFloat (F64.literal 11 10));
       ("MET_COEFF_SWM_2", PyInt 2)]
  end.

Definition mro (c : class) : list class :=
  match c with
  | Training => [Training]
  | _ => [c; Training]
  end.

(** A dict, its keys in the order they were inserted: [d.get(k)]. *)
Fixpoint assoc {A : Type} (k : string) (d : list (string * A)) : option A :=
  match d with
  | [] => None
  | (k', v) :: d' => if String.eqb k k' then Some v else assoc k d'
  end.

(** Assignment to a key: in place when the key is there, appended when
    it is new. *)
Fixpoint assign {A : Type} (k : string) (v : A) (d : list (string * A))
    : list (string * A) :=
  match d with
  | [] => [(k, v)]
  | (k', v') :: d' =>
      if String.eqb k k' then (k, v) :: d' else (k', v') :: assign k v d'
  end.

Fixpoint class_lookup (k : string) (cs : list class) : option num :=
  match cs with
  | [] => None
  | c :: cs' =>
      match assoc k (class_dict c) with
      | Some v => Some v
      | None => class_lookup k cs'
      end
  end.

(** ** The state threaded by the program

    [self] is the instance a method runs on; [stdout] is the text printed
    so far, one entry per [print]. *)

Record world : Type := mkWorld {
  self : object;
  stdout : list string
}.

Definition M (A : Type) : Type := world -> result A * world.

Definition ret {A : Type} (a : A) : M A := fun w => (Ok a, w).

Definition raise {A : Type} (e : exn) : M A := fun w => (Raise e, w).

Definition lift {A : Type} (r : result A) : M A := fun w => (r, w).

Definition bind {A B : Type} (m : M A) (k : A -> M B) : M B :=
  fun w =>
    match m w with
    | (Ok a, w') => k a w'
    | (Raise e, w') => (Raise e, w')
    end.

Declare Scope py_scope.
Delimit Scope py_scope with py.
Notation "x <- m ;; k" := (bind m (fun x => k))
  (at level 61, m at next level, right associativity) : py_scope.
Notation "m ;;; k" := (bind m (fun _ => k))
  (at level 61, right associativity) : py_scope.

(** [self.name] *)
Definition getattr (name : string) : M num :=
  fun w =>
    match assoc name (ob_dict (self w)) with
    | Some v => (Ok v, w)
    | None =>
        match class_lookup name (mro (ob_type (self w))) with
        | Some v => (Ok v, w)
        | None => (Raise (AttributeError name), w)
        end
    end.

(** [self.name = v] *)
Definition setattr (name : string) (v : num) : M unit :=
  fun w =>
    (Ok tt,
     mkWorld (mkObject (ob_type (self w)) (assign name v (ob_dict (self w))))
             (stdout w)).

(** [self.__class__.__name__] *)
Definition type_name : M string :=
  fun w => (Ok (class_name (ob_type (self w))), w).

(** [print(s)] *)
Definition print (s : string) : M unit :=
  fun w => (Ok tt, mkWorld (self w) (stdout w ++ [s])).

(** The value a computation returns and the state it leaves. *)
Definition value {A : Type} (m : M A) (w : world) : result A := fst (m w).
Definition after {A : Type} (m : M A) (w : world) : world := snd (m w).

(** ** InfoMessage *)

Record InfoMessage : Type := mkInfoMessage {
  training_type : string;
  duration : num;
  distance : num;
  speed : num;
  calories : num
}.

Definition InfoMessage_get_message (m : InfoMessage) : result string :=
  (d <- Py.format_3f (duration m) ;;
   s <- Py.format_3f (distance m) ;;
   v <- Py.format_3f (speed m) ;;
   c <- Py.format_3f (calories m) ;;
   Ok ("Тип тренировки: " ++ training_type m ++ "; "
       ++ "Длительность: " ++ d ++ " ч.; "
       ++ "Дистанция: " ++ s ++ " км; "
       ++ "Ср. скорость: " ++ v ++ " км/ч; "
       ++ "Потрачено ккал: " ++ c ++ "."))%result.

(** ** The Training classes *)

Section Classes.

(** The C library's [pow]: its value and whether it reported a range
    error. *)
Variable libm_pow : F64.float -> F64.float -> F64.float * bool.

Local Open Scope py_scope.

Definition Training___init__ (action duration weight : num) : M unit :=
  setattr "action" action ;;;
  setattr "duration" duration ;;;
  setattr "weight" weight.

Definition Training_get_distance : M num :=
  a <- getattr "action" ;;
  l <- getattr "LEN_STEP" ;;
  x <- lift (Py.mul a l) ;;
  k <- getattr "M_IN_KM" ;;
  lift (Py.truediv x k).

(** [self.get_distance()]: no subclass overrides it. *)
Definition get_distance : M num := Training_get_distance.

Definition Training_get_mean_speed : M num :=
  s <- get_distance ;;
  d <- getattr "duration" ;;
  lift (Py.truediv s d).

Definition Swimming_get_mean_speed : M num :=
  lp <- getattr "length_pool" ;;
  cp <- getattr "count_pool" ;;
  distance_meters <- lift (Py.mul lp cp) ;;
  k <- getattr "M_IN_KM" ;;
  distance_km <- lift (Py.truediv distance_meters k) ;;
  d <- getattr "duration" ;;
  lift (Py.truediv distance_km d).

(** [self.get_mean_speed()] *)
Definition get_mean_speed : M num :=
  fun w =>
    match ob_type (self w) with
    | Swimming => Swimming_get_mean_speed w
    | _ => Training_get_mean_speed w
    end.

Definition Training_get_spent_calories : M num :=
  raise NotImplementedError.

Definition Running_get_spent_calories : M num :=
  c1 <- getattr "MET_COEFF_RUN_1" ;;
  v <- get_mean_speed ;;
  t <- lift (Py.mul c1 v) ;;
  c2 <- getattr "MET_COEFF_RUN_2" ;;
  t <- lift (Py.sub t c2) ;;
  wt <- getattr "weight" ;;
  pace <- lift (Py.mul t wt) ;;
  k <- getattr "M_IN_KM" ;;
  pace_in_km <- lift (Py.truediv pace k) ;;
  d <- getattr "duration" ;;
  h <- getattr "MIN_IN_HOUR" ;;
  pace_in_min <- lift (Py.mul d h) ;;
  lift (Py.mul pace_in_km pace_in_min).

Definition SportsWalking___init__ (action duration weight height : num)
    : M unit :=
  Training___init__ action duration weight ;;;
  setattr "height" height.

Definition SportsWalking_get_spent_calories : M num :=
  c1 <- getattr "MET_COEFF_WLK_1" ;;
  wt <- getattr "weight" ;;
  t1 <- lift (Py.mul c1 wt) ;;
  v <- get_mean_speed ;;
  sq <- lift (Py.pow_2 libm_pow v) ;;
  ht <- getattr "height" ;;
  fd <- lift (Py.floordiv sq ht) ;;
  c2 <- getattr "MET_COEFF_WLK_2" ;;
  t2 <- lift (Py.mul fd c2) ;;
  wt <- getattr "weight" ;;
  t2 <- lift (Py.mul t2 wt) ;;
  pace <- lift (Py.add t1 t2) ;;
  d <- getattr "duration" ;;
  h <- getattr "MIN_IN_HOUR" ;;
  pace_in_min <- lift (Py.mul d h) ;;
  lift (Py.mul pace pace_in_min).

Definition Swimming___init__
    (action duration weight length_pool count_pool : num) : M unit :=
  Training___init__ action duration weight ;;;
  setattr "length_pool" length_pool ;;;
  setattr "count_pool" count_pool.

Definition Swimming_get_spent_calories : M num :=
  v <- get_mean_speed ;;
  c1 <- getattr "MET_COEFF_SWM_1" ;;
  t <- lift (Py.add v c1) ;;
  c2 <- getattr "MET_COEFF_SWM_2" ;;
  t <- lift (Py.mul t c2) ;;
  wt <- getattr "weight" ;;
  lift (Py.mul t wt).

(** [self.get_spent_calories()] *)
Definition get_spent_calories : M num :=
  fun w =>
    match ob_type (self w) with
    | Training => Training_get_spent_calories w
    | Running => Running_get_spent_calories w
    | SportsWalking => SportsWalking_get_spent_calories w
    | Swimming => Swimming_get_spent_calories w
    end.

Definition Training_show_training_info : M InfoMessage :=
  n <- type_name ;;
  d <- getattr "duration" ;;
  s <- get_distance ;;
  v <- get_mean_speed ;;
  c <- get_spent_calories ;;
  ret (mkInfoMessage n d s v c).

(** [self.show_training_info()]: defined by [Training] alone. *)
Definition show_training_info : M InfoMessage := Training_show_training_info.

(** Calling the class [cls] on the unpacked [args]: a fresh instance,
    then the class's [__init__], which the call must fit in number of
    arguments. *)
Definition new (cls : class) (args : list num) : result object :=
  let fresh := mkWorld (mkObject cls []) [] in
  match cls, args with
  | Training, [a; d; wt] | Running, [a; d; wt] =>
      Ok (self (after (Training___init__ a d wt) fresh))
  | SportsWalking, [a; d; wt; ht] =>
      Ok (self (after (SportsWalking___init__ a d wt ht) fresh))
  | Swimming, [a; d; wt; lp; cp] =>
      Ok (self (after (Swimming___init__ a d wt lp cp) fresh))
  | _, _ => Raise TypeError
  end.

Definition activities : list (string * class) :=
  [("SWM", Swimming); ("RUN", Running); ("WLK", SportsWalking)].

(** [sep.join(l)] *)
Fixpoint join (sep : string) (l : list string) : string :=
  match l with
  | [] => ""
  | [s] => s
  | s :: l' => s ++ sep ++ join sep l'
  end.

Definition read_package (workout_type : string) (data : list num)
    : result object :=
  match assoc workout_type activities with
  | None =>
      Raise (ValueError
               (workout_type ++ " is not a supported workout type "
                ++ "(try one of these: "
                ++ join ", " (map fst activities) ++ ")"))
  | Some cls => new cls data
  end.

Definition main : M unit :=
  info <- show_training_info ;;
  msg <- lift (InfoMessage_get_message info) ;;
  print msg.

(** [main(training)] with the text printed before it. *)
Definition run_main (training : object) (out : list string)
    : result unit * world :=
  main (mkWorld training out).

(** The loop of the script: each package is read and reported; the first
    exception ends the run. *)
Fixpoint script (packages : list (string * list num)) (out : list string)
    : result unit * list string :=
  match packages with
  | [] => (Ok tt, out)
  | (workout_type, data) :: rest =>
      match read_package workout_type data with
      | Raise e => (Raise e, out)
      | Ok training =>
          match run_main training out with
          | (Ok _, w) => script rest (stdout w)
          | (Raise e, w) => (Raise e, stdout w)
          end
      end
  end.

End Classes.

Definition packages : list (string * list num) :=
  [("SWM", [PyInt 720; PyInt 1; PyInt 80; PyInt 25; PyInt 40]);
   ("RUN", [PyInt 15000; PyInt 1; PyInt 75]);
   ("WLK", [PyInt 9000; PyInt 1; PyInt 75; PyInt 180])].

(** ** The formulas of the specification

    Each formula is written as the specification states it, with the
    operators of Python numbers, to be compared with what the methods
    compute. *)

Module Spec.

Local Open Scope result_scope.

(** [action * 0.65 / 1000 / duration] *)
Definition mean_speed (action duration : num) : result num :=
  x <- Py.mul action (PyFloat (F64.literal 65 100)) ;;
  s <- Py.truediv x (PyInt 1000) ;;
  Py.truediv s duration.

(** [((18 * mean_speed - 20) * weight / 1000) * (duration * 60)] *)
Definition running_calories (action duration weight : num) : result num :=
  v <- mean_speed action duration ;;
  t <- Py.mul (PyInt 18) v ;;
  t <- Py.sub t (PyInt 20) ;;
  t <- Py.mul t weight ;;
  t <- Py.truediv t (PyInt 1000) ;;
  u <- Py.mul duration (PyInt 60) ;;
  Py.mul t u.

(** [(0.035 * weight + (mean_speed ** 2 // height) * 0.029 * weight)
     * (duration * 60)] *)
Definition walking_calories
    (libm_pow : F64.float -> F64.float -> F64.float * bool)
    (action duration weight height : num) : result num :=
  t1 <- Py.mul (PyFloat (F64.literal 35 1000)) weight ;;
  v <- mean_speed action duration ;;
  sq <- Py.pow_2 libm_pow v ;;
  fd <- Py.floordiv sq height ;;
  t2 <- Py.mul fd (PyFloat (F64.literal 29 1000)) ;;
  t2 <- Py.mul t2 weight ;;
  t <- Py.add t1 t2 ;;
  u <- Py.mul duration (PyInt 60) ;;
  Py.mul t u.


(** [(pool_length * pool_lap_count / 1000) / duration] *)
Definition swimming_mean_speed (length_pool count_pool duration : num)
    : result num :=
  m <- Py.mul length_pool count_pool ;;
  km <- Py.truediv m (PyInt 1000) ;;
  Py.truediv km duration.

(** The report line: the label, then duration, distance, speed and
    calories, in the fixed text with its units. *)
Definition report_line (label d s v c : string) : string :=
  "Тип тренировки: " ++ label
  ++ "; Длительность: " ++ d
  ++ " ч.; Дистанция: " ++ s
  ++ " км; Ср. скорость: " ++ v
  ++ " км/ч; Потрачено ккал: " ++ c ++ ".".

Definition is_digit (c : ascii) : bool :=
  ((48 <=? N_of_ascii c) && (N_of_ascii c <=? 57))%N.

Fixpoint all_digits (s : string) : bool :=
  match s with
  | "" => true
  | String c s' => is_digit c && all_digits s'
  end.

Definition three_digits (s : string) : bool :=
  match s with
  | String a (String b (String c "")) => is_digit a && is_digit b && is_digit c
  | _ => false
  end.

(** Digits, at least one; a point; exactly three digits. *)
Fixpoint unsigned_fixed_3 (seen : bool) (s : string) : bool :=
  match s with
  | "" => false
  | String c s' =>
      if Ascii.eqb c "." then seen && three_digits s'
      else is_digit c && unsigned_fixed_3 true s'
  end.

(** A number written with exactly three digits after the decimal point. *)
Definition is_fixed_3 (s : string) : bool :=
  match s with
  | "" => false
  | String c s' =>
      if Ascii.eqb c "-" then unsigned_fixed_3 false s'
      else unsigned_fixed_3 false s
  end.

(** No line feed in the text. *)
Fixpoint one_line (s : string) : bool :=
  match s with
  | "" => true
  | String c s' => negb (Ascii.eqb c "010") && one_line s'
  end.

(** What the rendering of a record is to be: the four numbers formatted,
    each with exactly three digits after the point, and set in the report
    line, which is a single line. *)
Definition well_rendered (m : InfoMessage) : Prop :=
  exists d s v c : string,
    Py.format_3f (duration m) = Ok d
    /\ Py.format_3f (distance m) = Ok s
    /\ Py.format_3f (speed m) = Ok v
    /\ Py.format_3f (calories m) = Ok c
    /\ is_fixed_3 d = true /\ is_fixed_3 s = true
    /\ is_fixed_3 v = true /\ is_fixed_3 c = true
    /\ InfoMessage_get_message m
       = Ok (report_line (training_type m) d s v c)
    /\ one_line (report_line (training_type m) d s v c) = true.

End Spec.

(** A number that is a finite float, or an int that converts to one. *)
Definition finite (a : num) : bool :=
  match Py.to_float a with
  | Ok f => F64.is_finite f
  | Raise _ => false
  end.

(** A computation that leaves the state as it found it. *)
Definition pure {A : Type} (m : M A) : Prop := forall w, after m w = w.

(** Every exception a computation can raise satisfies [P]. *)
Definition raises_only {A : Type} (P : exn -> Prop) (m : M A) : Prop :=
  forall w e, value m w = Raise e -> P e.

(** Two calls in a row, with what each returned. *)
Definition twice {A : Type} (m : M A) : M (A * A) :=
  bind m (fun r1 => bind m (fun r2 => ret (r1, r2))).

(** An exception other than [NotImplementedError]. *)
Definition implemented (e : exn) : Prop := e <> NotImplementedError.

(** The instances the three constructors build. *)
Definition a_Running (action duration weight : num) : object :=
  mkObject Running
    [("action", action); ("duration", duration); ("weight", weight)].

Definition a_SportsWalking (action duration weight height : num) : object :=
  mkObject SportsWalking
    [("action", action); ("duration", duration); ("weight", weight);
     ("height", height)].

Definition a_Swimming (action duration weight length_pool count_pool : num)
    : object :=
  mkObject Swimming
    [("action", action); ("duration", duration); ("weight", weight);
     ("length_pool", length_pool); ("count_pool", count_pool)].

(** ** Vocabulary of the further properties *)

(** The number of arguments the constructor of a class takes. *)
Definition arity (c : class) : nat :=
  match c with
  | Training | Running => 3%nat
  | SportsWalking => 4%nat
  | Swimming => 5%nat
  end.

(** A float, or an int that converts to one. *)
Definition in_range (a : num) : bool :=
  match Py.to_float a with
  | Ok _ => true
  | Raise _ => false
  end.

(** [action * LEN_STEP / 1000] with the [LEN_STEP] of a class. *)
Definition distance_with_step (len_step action : num) : result num :=
  (x <- Py.mul action len_step ;; Py.truediv x (PyInt 1000))%result.

(** [(mean_speed + 1.1) * 2 * weight] on the mean speed of a pool. *)
Definition swimming_calories (length_pool count_pool duration weight : num)
    : result num :=
  (v <- Spec.swimming_mean_speed length_pool count_pool duration ;;
   t <- Py.add v (PyFloat (F64.literal 11 10)) ;;
   t <- Py.mul t (PyInt 2) ;;
   Py.mul t weight)%result.

(** The calories of a walk with the term [mean_speed ** 2 // height] given:
    [(0.035 * weight + term * 0.029 * weight) * (duration * 60)]. *)
Definition walking_calories_with_term (term duration weight : num)
    : result num :=
  (t1 <- Py.mul (PyFloat (F64.literal 35 1000)) weight ;;
   t2 <- Py.mul term (PyFloat (F64.literal 29 1000)) ;;
   t2 <- Py.mul t2 weight ;;
   t <- Py.add t1 t2 ;;
   u <- Py.mul duration (PyInt 60) ;;
   Py.mul t u)%result.

(** The exceptions of arithmetic. *)
Definition arithmetic_error (e : exn) : Prop :=
  e = ZeroDivisionError \/ e = OverflowError.

(** What [main] leaves on a state from what the report and its rendering
    return: the line is printed when both succeed, nothing is otherwise. *)
Definition main_outcome (r : result InfoMessage) (w : world)
    : result unit * world :=
  match r with
  | Raise e => (Raise e, w)
  | Ok info =>
      match InfoMessage_get_message info with
      | Raise e => (Raise e, w)
      | Ok msg => (Ok tt, mkWorld (self w) (stdout w ++ [msg]))
      end
  end.

(** * Properties *)

(** ** binary64: an integer other than zero converts to a float other than
    zero *)

Lemma digits2_pos_lower (p : positive) :
  2 ^ (Zpos (digits2_pos p) - 1) <= Zpos p.
Proof.
  induction p as [p IH | p IH |]; cbn [digits2_pos]; [| | reflexivity];
    rewrite Pos2Z.inj_succ;
    replace (Z.succ (Zpos (digits2_pos p)) - 1)
      with (Z.succ (Zpos (digits2_pos p) - 1)) by lia;
    rewrite Z.pow_succ_r by lia; lia.
Qed.

Lemma shr_1_m (r : shr_record) :
  0 <= shr_m r -> shr_m (shr_1 r) = shr_m r / 2.
Proof.
  destruct r as [m b s]. cbn [shr_m]. intros Hm.
  destruct m as [| [p | p |] | p]; cbn [shr_1 shr_m]; try reflexivity; try lia.
  - apply Z.div_unique with (r := 1); lia.
  - apply Z.div_unique with (r := 0); lia.
Qed.

Lemma pow2_xI (n : positive) : 2 ^ Zpos n~1 = 2 * (2 ^ Zpos n * 2 ^ Zpos n).
Proof.
  rewrite Pos2Z.inj_xI, <- Z.pow_add_r, <- Z.pow_succ_r by lia. f_equal. lia.
Qed.

Lemma pow2_xO (n : positive) : 2 ^ Zpos n~0 = 2 ^ Zpos n * 2 ^ Zpos n.
Proof.
  rewrite Pos2Z.inj_xO, <- Z.pow_add_r by lia. f_equal. lia.
Qed.

Lemma iter_shr_1_m (n : positive) :
  forall r, 0 <= shr_m r -> shr_m (iter_pos shr_1 n r) = shr_m r / 2 ^ Zpos n.
Proof.
  induction n as [n IH | n IH |]; intros r Hr; cbn [iter_pos].
  - assert (H1 : 0 <= shr_m (shr_1 r))
      by (rewrite shr_1_m by assumption; apply Z.div_pos; lia).
    assert (H2 : 0 <= shr_m (iter_pos shr_1 n (shr_1 r)))
      by (rewrite IH by assumption; apply Z.div_pos; lia).
    rewrite IH, IH, shr_1_m by assumption.
    rewrite pow2_xI, !Z.div_div by lia. reflexivity.
  - assert (H2 : 0 <= shr_m (iter_pos shr_1 n r))
      by (rewrite IH by assumption; apply Z.div_pos; lia).
    rewrite IH, IH by assumption.
    rewrite pow2_xO, !Z.div_div by lia. reflexivity.
  - rewrite shr_1_m by assumption. reflexivity.
Qed.

Lemma shr_record_of_loc_m (m : Z) (l : location) : shr_m (shr_record_of_loc m l) = m.
Proof. destruct l as [| []]; reflexivity. Qed.

(** Shifting a positive mantissa to its binary64 exponent keeps it positive as
    long as the exponent it starts from is not below the least one. *)
Lemma shr_fexp_positive (m : positive) (e : Z) (l : location) :
  -1074 <= e ->
  0 < shr_m (fst (shr_fexp F64.prec F64.emax (Zpos m) e l))
  /\ -1074 <= snd (shr_fexp F64.prec F64.emax (Zpos m) e l).
Proof.
  intros He. unfold shr_fexp, shr.
  pose proof (digits2_pos_lower m) as Hd.
  set (d := Zpos (digits2_pos m)) in *.
  cbn [Zdigits2]. fold d.
  unfold fexp, emin, F64.prec, F64.emax.
  destruct (Z.max (d + e - 53) (3 - 1024 - 53) - e) as [| n | n] eqn:Hn;
    cbn [fst snd]; rewrite ?shr_record_of_loc_m; try (split; lia).
  rewrite iter_shr_1_m by (rewrite shr_record_of_loc_m; lia).
  rewrite shr_record_of_loc_m.
  split; [| lia].
  assert (Hle : Zpos n <= d - 1) by lia.
  assert (2 ^ Zpos n <= Zpos m).
  { apply Z.le_trans with (2 ^ (d - 1)); [apply Z.pow_le_mono_r; lia | assumption]. }
  apply Z.div_str_pos. lia.
Qed.

Lemma round_nearest_even_positive (m : Z) (l : location) :
  0 < m -> 0 < round_nearest_even m l.
Proof.
  intros Hm. destruct l as [| []]; cbn [round_nearest_even]; try lia.
  destruct (Z.even m); lia.
Qed.

Lemma binary_round_aux_nonzero (s : bool) (m : positive) (e : Z) (l : location) :
  -1074 <= e ->
  F64.is_zero (binary_round_aux F64.prec F64.emax s (Zpos m) e l) = false.
Proof.
  intros He. unfold binary_round_aux.
  destruct (shr_fexp_positive m e l He) as [H1 H2].
  destruct (shr_fexp F64.prec F64.emax (Zpos m) e l) as [mrs' e'].
  cbn [fst snd] in H1, H2.
  pose proof (round_nearest_even_positive _ (loc_of_shr_record mrs') H1) as H3.
  destruct (round_nearest_even (shr_m mrs') (loc_of_shr_record mrs')) as [| m1 |] eqn:E1; try lia.
  destruct (shr_fexp_positive m1 e' loc_Exact H2) as [H4 _].
  destruct (shr_fexp F64.prec F64.emax (Zpos m1) e' loc_Exact) as [mrs'' e''].
  cbn [fst] in H4.
  destruct (shr_m mrs'') as [| m2 |]; try lia.
  destruct (e'' <=? F64.emax - F64.prec); reflexivity.
Qed.

Lemma binary_round_nonzero (s : bool) (m : positive) :
  F64.is_zero (binary_round F64.prec F64.emax s m 0) = false.
Proof.
  unfold binary_round, shl_align.
  destruct (fexp F64.prec F64.emax (Zpos (digits2_pos m) + 0) - 0) as [| n | n] eqn:Hn;
    apply binary_round_aux_nonzero; try lia.
  unfold fexp, emin, F64.prec, F64.emax. lia.
Qed.

Lemma of_Z_nonzero (z : Z) : z <> 0 -> F64.is_zero (F64.of_Z z) = false.
Proof.
  intros Hz. unfold F64.of_Z, binary_normalize.
  destruct z; [lia | apply binary_round_nonzero | apply binary_round_nonzero].
Qed.

(** ** Python numbers: which exception an operator can raise *)

Lemma to_float_error (a : num) (e : exn) :
  Py.to_float a = Raise e -> e = OverflowError.
Proof.
  destruct a as [z | f]; cbn [Py.to_float]; [| discriminate].
  unfold Py.int_to_float. destruct (F64.is_inf (F64.of_Z z)); congruence.
Qed.

Lemma to_float_positive (a : num) (y : F64.float) :
  Py.positive a = true -> Py.to_float a = Ok y -> F64.is_zero y = false.
Proof.
  destruct a as [z | f]; cbn [Py.positive Py.to_float].
  - intros Hz. unfold Py.int_to_float.
    destruct (F64.is_inf (F64.of_Z z)); [discriminate |].
    intros [= <-]. apply of_Z_nonzero. lia.
  - intros Hf [= <-]. destruct f as [s | s | | s m e]; try reflexivity.
    destruct s; discriminate.
Qed.

Lemma to_float_zero (a : num) (y : F64.float) :
  Py.is_zero a = true -> Py.to_float a = Ok y -> F64.is_zero y = true.
Proof.
  destruct a as [z | f]; cbn [Py.is_zero Py.to_float].
  - intros Hz. apply Z.eqb_eq in Hz. subst z. cbv. intros [= <-]. reflexivity.
  - intros Hf [= <-]. assumption.
Qed.

Lemma float_operands_error {A : Type} (k : F64.float -> F64.float -> result A)
    (P : exn -> Prop) (a b : num) (e : exn) :
  P OverflowError ->
  (forall x y, Py.to_float a = Ok x -> Py.to_float b = Ok y -> k x y = Raise e -> P e) ->
  (x <- Py.to_float a ;; y <- Py.to_float b ;; k x y)%result = Raise e -> P e.
Proof.
  intros HP Hk.
  destruct (Py.to_float a) as [x | e1] eqn:Ea; cbn [rbind].
  - destruct (Py.to_float b) as [y | e2] eqn:Eb; cbn [rbind].
    + apply Hk; reflexivity.
    + intros [= <-]. rewrite (to_float_error _ _ Eb). exact HP.
  - intros [= <-]. rewrite (to_float_error _ _ Ea). exact HP.
Qed.

Lemma mul_error (a b : num) (e : exn) :
  Py.mul a b = Raise e -> e = OverflowError.
Proof.
  unfold Py.mul.
  destruct a, b; try discriminate;
    apply (float_operands_error _ (fun e => e = OverflowError));
    try reflexivity; discriminate.
Qed.

Lemma add_error (a b : num) (e : exn) :
  Py.add a b = Raise e -> e = OverflowError.
Proof.
  unfold Py.add.
  destruct a, b; try discriminate;
    apply (float_operands_error _ (fun e => e = OverflowError));
    try reflexivity; discriminate.
Qed.

Lemma sub_error (a b : num) (e : exn) :
  Py.sub a b = Raise e -> e = OverflowError.
Proof.
  unfold Py.sub.
  destruct a, b; try discriminate;
    apply (float_operands_error _ (fun e => e = OverflowError));
    try reflexivity; discriminate.
Qed.

Lemma int_true_divide_error (x y : Z) (e : exn) :
  Py.int_true_divide x y = Raise e ->
  e = OverflowError \/ (e = ZeroDivisionError /\ y = 0).
Proof.
  unfold Py.int_true_divide.
  destruct (Z.eqb_spec y 0) as [-> | Hy].
  - intros [= <-]. right. split; reflexivity.
  - destruct (F64.is_inf _); [| discriminate]. intros [= <-]. left. reflexivity.
Qed.

Lemma truediv_error (a b : num) (e : exn) :
  Py.truediv a b = Raise e ->
  e = OverflowError \/ (e = ZeroDivisionError /\ Py.positive b = false).
Proof.
  unfold Py.truediv.
  destruct a as [x | x], b as [y | y];
    try (apply (float_operands_error _
           (fun e => e = OverflowError \/ (e = ZeroDivisionError /\ _ = false)));
         [left; reflexivity |];
         intros x' y' _ Ey;
         destruct (F64.is_zero y') eqn:Hz; [| discriminate];
         intros [= <-]; right; split; [reflexivity |];
         match goal with
         | |- ?p = false => destruct p eqn:Hp; [| reflexivity];
             rewrite (to_float_positive _ _ Hp Ey) in Hz; discriminate
         end).
  destruct (Py.int_true_divide x y) as [q | e'] eqn:E; cbn [rbind]; [discriminate |].
  intros [= <-]. destruct (int_true_divide_error _ _ _ E) as [-> | [-> ->]].
  - left. reflexivity.
  - right. split; reflexivity.
Qed.

Lemma float_floor_div_error (x y : F64.float) (e : exn) :
  Py.float_floor_div x y = Raise e ->
  e = ZeroDivisionError /\ F64.is_zero y = true.
Proof.
  unfold Py.float_floor_div.
  destruct (F64.is_zero y); [intros [= <-]; split; reflexivity |].
  match goal with |- (if ?c then _ else _) = _ -> _ => destruct c end; discriminate.
Qed.

Lemma floordiv_error (a b : num) (e : exn) :
  Py.floordiv a b = Raise e ->
  e = OverflowError \/ (e = ZeroDivisionError /\ Py.positive b = false).
Proof.
  unfold Py.floordiv.
  destruct a as [x | x], b as [y | y];
    try (apply (float_operands_error _
           (fun e => e = OverflowError \/ (e = ZeroDivisionError /\ _ = false)));
         [left; reflexivity |];
         intros x' y' _ Ey;
         destruct (Py.float_floor_div x' y') as [q | e'] eqn:E; cbn [rbind];
         [discriminate |];
         intros [= <-]; destruct (float_floor_div_error _ _ _ E) as [-> Hz];
         right; split; [reflexivity |];
         match goal with
         | |- ?p = false => destruct p eqn:Hp; [| reflexivity];
             rewrite (to_float_positive _ _ Hp Ey) in Hz; discriminate
         end).
  destruct (Z.eqb_spec y 0) as [-> | Hy]; [| discriminate].
  intros [= <-]. right. split; reflexivity.
Qed.

Lemma pow_2_error (libm_pow : F64.float -> F64.float -> F64.float * bool)
    (a : num) (e : exn) :
  Py.pow_2 libm_pow a = Raise e -> e = OverflowError.
Proof.
  destruct a as [x | f]; cbn [Py.pow_2]; [discriminate |].
  unfold Py.float_pow_2.
  destruct (F64.is_nan f); [discriminate |].
  destruct (F64.is_inf f); [discriminate |].
  destruct (F64.is_zero f); [discriminate |].
  match goal with |- context [F64.eqb ?v F64.one] => destruct (F64.eqb v F64.one) end;
    [discriminate |].
  match goal with |- context [libm_pow ?v ?w] => destruct (libm_pow v w) as [ix er] end.
  match goal with |- context [if ?c then Raise _ else _] => destruct c end;
    cbn [rbind]; [| discriminate].
  intros [= <-]. reflexivity.
Qed.



(** ** The state: which computations leave it alone *)

Lemma pure_ret {A : Type} (a : A) : pure (ret a).
Proof. intros w. reflexivity. Qed.

Lemma pure_raise {A : Type} (e : exn) : pure (@raise A e).
Proof. intros w. reflexivity. Qed.

Lemma pure_lift {A : Type} (r : result A) : pure (lift r).
Proof. intros w. reflexivity. Qed.

Lemma pure_getattr (name : string) : pure (getattr name).
Proof.
  intros w. unfold after, getattr.
  destruct (assoc name (ob_dict (self w))); [reflexivity |].
  destruct (class_lookup name (mro (ob_type (self w)))); reflexivity.
Qed.

Lemma pure_type_name : pure type_name.
Proof. intros w. reflexivity. Qed.

Lemma pure_bind {A B : Type} (m : M A) (k : A -> M B) :
  pure m -> (forall a, pure (k a)) -> pure (bind m k).
Proof.
  intros Hm Hk w. unfold after, bind.
  specialize (Hm w). unfold after in Hm.
  destruct (m w) as [[a | e] w']; cbn [snd] in *; subst w'.
  - apply Hk.
  - reflexivity.
Qed.

Create HintDb pure discriminated.
#[local] Hint Resolve pure_ret pure_raise pure_lift pure_getattr pure_type_name : pure.

Ltac pure_steps :=
  repeat first
    [ apply pure_bind; [| intro]
    | solve [auto with pure] ].

Lemma pure_get_distance : pure get_distance.
Proof. unfold get_distance, Training_get_distance. pure_steps. Qed.

#[local] Hint Resolve pure_get_distance : pure.

Lemma pure_Training_get_mean_speed : pure Training_get_mean_speed.
Proof. unfold Training_get_mean_speed. pure_steps. Qed.

Lemma pure_Swimming_get_mean_speed : pure Swimming_get_mean_speed.
Proof. unfold Swimming_get_mean_speed. pure_steps. Qed.

Lemma pure_get_mean_speed : pure get_mean_speed.
Proof.
  intros w. unfold after, get_mean_speed.
  destruct (ob_type (self w));
    first [apply pure_Swimming_get_mean_speed | apply pure_Training_get_mean_speed].
Qed.

#[local] Hint Resolve pure_get_mean_speed : pure.

Section PureCalories.

Variable libm_pow : F64.float -> F64.float -> F64.float * bool.

Lemma pure_Running_get_spent_calories : pure Running_get_spent_calories.
Proof. unfold Running_get_spent_calories. pure_steps. Qed.

Lemma pure_SportsWalking_get_spent_calories :
  pure (SportsWalking_get_spent_calories libm_pow).
Proof. unfold SportsWalking_get_spent_calories. pure_steps. Qed.

Lemma pure_Swimming_get_spent_calories : pure Swimming_get_spent_calories.
Proof. unfold Swimming_get_spent_calories. pure_steps. Qed.

Lemma pure_get_spent_calories : pure (get_spent_calories libm_pow).
Proof.
  intros w. unfold after, get_spent_calories.
  destruct (ob_type (self w)).
  - reflexivity.
  - apply pure_Running_get_spent_calories.
  - apply pure_SportsWalking_get_spent_calories.
  - apply pure_Swimming_get_spent_calories.
Qed.

Lemma pure_show_training_info : pure (show_training_info libm_pow).
Proof.
  unfold show_training_info, Training_show_training_info.
  pose proof pure_get_spent_calories. pure_steps.
Qed.

End PureCalories.

(** A computation that leaves the state alone is a function of the state. *)
Lemma pure_run {A : Type} (m : M A) (w : world) :
  pure m -> m w = (value m w, w).
Proof.
  intros Hm. specialize (Hm w). unfold after, value in *.
  destruct (m w) as [r w']. cbn [fst snd] in *. subst w'. reflexivity.
Qed.

(** ** The exceptions a method can raise *)

Lemma raises_only_ret {A : Type} (P : exn -> Prop) (a : A) :
  raises_only P (ret a).
Proof. intros w e. discriminate. Qed.

Lemma raises_only_lift {A : Type} (P : exn -> Prop) (r : result A) :
  (forall e, r = Raise e -> P e) -> raises_only P (lift r).
Proof. intros Hr w e. apply Hr. Qed.

Lemma raises_only_getattr (P : exn -> Prop) (name : string) :
  P (AttributeError name) -> raises_only P (getattr name).
Proof.
  intros HP w e. unfold value, getattr.
  destruct (assoc name (ob_dict (self w))); [discriminate |].
  destruct (class_lookup name (mro (ob_type (self w)))); [discriminate |].
  cbn [fst]. intros [= <-]. exact HP.
Qed.

Lemma raises_only_bind {A B : Type} (P : exn -> Prop) (m : M A) (k : A -> M B) :
  raises_only P m -> (forall a, raises_only P (k a)) ->
  raises_only P (bind m k).
Proof.
  intros Hm Hk w e. unfold value, bind.
  specialize (Hm w). unfold value in Hm.
  destruct (m w) as [[a | e'] w']; cbn [fst] in *.
  - apply Hk.
  - intros [= <-]. apply Hm. reflexivity.
Qed.

(** Arithmetic and attribute access never raise [NotImplementedError]. *)
Ltac implemented_steps :=
  repeat first
    [ apply raises_only_bind; [| intro]
    | apply raises_only_getattr; discriminate
    | apply raises_only_lift; intros ? ?He;
      first [ apply mul_error in He | apply add_error in He
            | apply sub_error in He | apply pow_2_error in He
            | apply truediv_error in He; destruct He as [He | [He _]]
            | apply floordiv_error in He; destruct He as [He | [He _]] ];
      subst; discriminate ].

Lemma implemented_get_distance : raises_only implemented get_distance.
Proof. unfold get_distance, Training_get_distance. implemented_steps. Qed.

Lemma implemented_get_mean_speed : raises_only implemented get_mean_speed.
Proof.
  assert (Hs : raises_only implemented Swimming_get_mean_speed)
    by (unfold Swimming_get_mean_speed; implemented_steps).
  assert (Ht : raises_only implemented Training_get_mean_speed)
    by (unfold Training_get_mean_speed;
        pose proof implemented_get_distance; implemented_steps; assumption).
  intros w e. unfold value, get_mean_speed.
  destruct (ob_type (self w)); first [apply Hs | apply Ht].
Qed.

Lemma implemented_Running_get_spent_calories :
  raises_only implemented Running_get_spent_calories.
Proof.
  unfold Running_get_spent_calories.
  pose proof implemented_get_mean_speed. implemented_steps; assumption.
Qed.

Lemma implemented_SportsWalking_get_spent_calories
    (libm_pow : F64.float -> F64.float -> F64.float * bool) :
  raises_only implemented (SportsWalking_get_spent_calories libm_pow).
Proof.
  unfold SportsWalking_get_spent_calories.
  pose proof implemented_get_mean_speed. implemented_steps; assumption.
Qed.

Lemma implemented_Swimming_get_spent_calories :
  raises_only implemented Swimming_get_spent_calories.
Proof.
  unfold Swimming_get_spent_calories.
  pose proof implemented_get_mean_speed. implemented_steps; assumption.
Qed.

(** ** Formatting: the shape of a number written with [.3f] *)

Lemma is_digit_digit (k : Z) : 0 <= k < 10 -> Spec.is_digit (Py.digit k) = true.
Proof.
  intros Hk.
  assert (H : k = 0 \/ k = 1 \/ k = 2 \/ k = 3 \/ k = 4 \/ k = 5 \/ k = 6
              \/ k = 7 \/ k = 8 \/ k = 9) by lia.
  repeat destruct H as [H | H]; subst k; reflexivity.
Qed.

Lemma all_digits_app (s t : string) :
  Spec.all_digits (s ++ t) = Spec.all_digits s && Spec.all_digits t.
Proof.
  induction s as [| c s IH]; cbn [append Spec.all_digits]; [reflexivity |].
  rewrite IH. apply andb_assoc.
Qed.

Lemma all_digits_string_of_uint (u : Decimal.uint) :
  Spec.all_digits (NilEmpty.string_of_uint u) = true.
Proof.
  induction u; cbn [NilEmpty.string_of_uint Spec.all_digits]; rewrite ?IHu; reflexivity.
Qed.

Lemma decimal_digits (n : Z) :
  Spec.all_digits (Py.decimal n) = true /\ Py.decimal n <> "".
Proof.
  unfold Py.decimal, NilZero.string_of_uint.
  destruct (N.to_uint (Z.to_N n)); split;
    cbn [NilEmpty.string_of_uint Spec.all_digits];
    rewrite ?all_digits_string_of_uint; (reflexivity || discriminate).
Qed.

Lemma is_digit_not_point (c : ascii) :
  Spec.is_digit c = true -> Ascii.eqb c "." = false.
Proof.
  intros Hc. destruct (Ascii.eqb_spec c "."); [subst c; discriminate | reflexivity].
Qed.

Lemma is_digit_not_minus (c : ascii) :
  Spec.is_digit c = true -> Ascii.eqb c "-" = false.
Proof.
  intros Hc. destruct (Ascii.eqb_spec c "-"); [subst c; discriminate | reflexivity].
Qed.

Lemma is_digit_not_newline (c : ascii) :
  Spec.is_digit c = true -> Ascii.eqb c "010" = false.
Proof.
  intros Hc. destruct (Ascii.eqb_spec c "010"); [subst c; discriminate | reflexivity].
Qed.

(** Digits, a point and three digits make an unsigned numeral, provided
    there is a digit before the point. *)
Lemma unsigned_fixed_3_digits (ip : string) (a b c : ascii) :
  Spec.all_digits ip = true ->
  Spec.is_digit a = true -> Spec.is_digit b = true -> Spec.is_digit c = true ->
  forall seen, (seen = true \/ ip <> "") ->
  Spec.unsigned_fixed_3 seen (ip ++ String "." (String a (String b (String c ""))))
  = true.
Proof.
  intros Hip Ha Hb Hc.
  induction ip as [| x ip IH]; intros seen Hseen; cbn [append Spec.unsigned_fixed_3].
  - destruct Hseen as [-> | Hne]; [| contradiction].
    cbn. rewrite Ha, Hb, Hc. reflexivity.
  - cbn [Spec.all_digits] in Hip. apply andb_prop in Hip. destruct Hip as [Hx Hip].
    rewrite (is_digit_not_point x Hx), Hx. cbn [andb].
    apply IH; [assumption | left; reflexivity].
Qed.

Lemma one_line_app (s t : string) :
  Spec.one_line (s ++ t) = Spec.one_line s && Spec.one_line t.
Proof.
  induction s as [| c s IH]; cbn [append Spec.one_line]; [reflexivity |].
  rewrite IH. apply andb_assoc.
Qed.

Lemma one_line_digits (s : string) :
  Spec.all_digits s = true -> Spec.one_line s = true.
Proof.
  induction s as [| c s IH]; cbn [Spec.all_digits Spec.one_line]; [reflexivity |].
  intros H. apply andb_prop in H. destruct H as [Hc Hs].
  rewrite (is_digit_not_newline c Hc), (IH Hs). reflexivity.
Qed.

Lemma fixed_3_shape (neg : bool) (n : Z) :
  Spec.is_fixed_3 (Py.fixed_3 neg n) = true
  /\ Spec.one_line (Py.fixed_3 neg n) = true.
Proof.
  destruct (decimal_digits (n / 1000)) as [Hd Hne].
  assert (Ha : Spec.is_digit (Py.digit (n / 100 mod 10)) = true)
    by (apply is_digit_digit, Z.mod_pos_bound; lia).
  assert (Hb : Spec.is_digit (Py.digit (n / 10 mod 10)) = true)
    by (apply is_digit_digit, Z.mod_pos_bound; lia).
  assert (Hc : Spec.is_digit (Py.digit (n mod 10)) = true)
    by (apply is_digit_digit, Z.mod_pos_bound; lia).
  pose proof (unsigned_fixed_3_digits _ _ _ _ Hd Ha Hb Hc false (or_intror Hne)) as Hu.
  unfold Py.fixed_3. split.
  - destruct neg.
    + exact Hu.
    + cbn [append]. unfold Spec.is_fixed_3.
      destruct (Py.decimal (n / 1000)) as [| x ip] eqn:E; [contradiction |].
      cbn [append] in *. cbn [Spec.all_digits] in Hd.
      apply andb_prop in Hd. destruct Hd as [Hx _].
      rewrite (is_digit_not_minus x Hx). exact Hu.
  - rewrite !one_line_app, (one_line_digits _ Hd).
    cbn [Spec.one_line].
    rewrite (is_digit_not_newline _ Ha), (is_digit_not_newline _ Hb),
      (is_digit_not_newline _ Hc).
    destruct neg; reflexivity.
Qed.

Lemma format_float_3f_shape (x : F64.float) :
  F64.is_finite x = true ->
  Spec.is_fixed_3 (Py.format_float_3f x) = true
  /\ Spec.one_line (Py.format_float_3f x) = true.
Proof.
  destruct x as [s | s | | s m e]; cbn [F64.is_finite Py.format_float_3f];
    try discriminate; intros _; apply fixed_3_shape.
Qed.

Lemma format_3f_shape (a : num) :
  finite a = true ->
  exists s, Py.format_3f a = Ok s
            /\ Spec.is_fixed_3 s = true /\ Spec.one_line s = true.
Proof.
  unfold finite, Py.format_3f.
  destruct (Py.to_float a) as [x | e]; [| discriminate].
  intros Hx. cbn [rbind]. eexists. split; [reflexivity |].
  apply format_float_3f_shape. exact Hx.
Qed.










(** ** The model on known values *)

(** The literal [0.65] is the double 0x3FE4CCCCCCCCCCCD, and [1.38] is
    0x3FF6147AE147AE14. *)
Example literal_values :
  F64.literal 65 100 = S754_finite false 5854679515581645 (-53)
  /\ F64.literal 138 100 = S754_finite false 6214967485771284 (-52)
  /\ valid_binary F64.prec F64.emax (F64.literal 65 100) = true
  /\ valid_binary F64.prec F64.emax (F64.literal 138 100) = true.
Proof. repeat split; vm_compute; reflexivity. Qed.

(** [1.0 // 0.1] is [9.0], the floor of the exact quotient of the two
    doubles, where [1.0 / 0.1] rounds to [10.0]; [-7.0 // 2.0] is [-4.0],
    [7.5 // 2.0] is [3.0] and [1.0 // inf] is [0.0]. *)
Example float_floor_div_values :
  Py.float_floor_div F64.one (F64.literal 1 10) = Ok (F64.of_Z 9)
  /\ F64.div F64.one (F64.literal 1 10) = F64.of_Z 10
  /\ Py.float_floor_div (F64.of_Z (-7)) F64.two = Ok (F64.of_Z (-4))
  /\ Py.float_floor_div (F64.literal 75 10) F64.two = Ok (F64.of_Z 3)
  /\ Py.float_floor_div F64.one (S754_infinity false) = Ok F64.zero.
Proof. repeat split; vm_compute; reflexivity. Qed.

(** [.3f] rounds the exact binary value, ties to even, keeps the sign of a
    negative zero and writes every digit of a large number. *)
Example format_3f_values :
  Py.format_3f (PyFloat (F64.literal 625 10000)) = Ok "0.062"
  /\ Py.format_3f (PyFloat (F64.literal 1875 10000)) = Ok "0.188"
  /\ Py.format_3f (PyFloat (F64.literal 5 10000)) = Ok "0.001"
  /\ Py.format_3f (PyFloat (F64.literal (-1) 10000)) = Ok "-0.000"
  /\ Py.format_3f (PyInt 1) = Ok "1.000"
  /\ Py.format_3f (PyInt (10 ^ 22)) = Ok "10000000000000000000000.000"
  /\ Py.format_3f (PyInt (10 ^ 400)) = Raise OverflowError.
Proof. repeat split; vm_compute; reflexivity. Qed.

(** The integer [thousandths m e] is a nearest one to m * 2^e * 1000. *)
Lemma thousandths_nearest (m : positive) (e : Z) :
  (0 <= e -> Py.thousandths m e = Zpos m * 1000 * 2 ^ e)
  /\ (e < 0 ->
      Z.abs (2 * (Py.thousandths m e * 2 ^ (- e) - Zpos m * 1000)) <= 2 ^ (- e)).
Proof.
  unfold Py.thousandths. split; intros He.
  - destruct (Z.leb_spec 0 e); [| lia]. apply Z.shiftl_mul_pow2. assumption.
  - destruct (Z.leb_spec 0 e); [lia |].
    rewrite Z.shiftl_1_l.
    assert (Hd : 0 < 2 ^ (- e)) by (apply Z.pow_pos_nonneg; lia).
    set (D := 2 ^ (- e)) in *. set (N := Zpos m * 1000).
    pose proof (Z.div_mod N D ltac:(lia)) as Hdm.
    pose proof (Z.mod_pos_bound N D Hd) as Hr.
    destruct (Z.compare_spec (2 * (N mod D)) D) as [Hc | Hc | Hc];
      [destruct (Z.even (N / D)) |..]; nia.
Qed.

(** ** The methods on the instances the factory builds *)

(** Runs the methods on a known instance and splits on every operator
    result met. *)
Ltac run_methods :=
  cbv -[Py.mul Py.truediv Py.sub Py.add Py.floordiv Py.pow_2 F64.literal
        Py.format_3f String.append];
  repeat match goal with
    | |- context [match ?r with Ok _ => _ | Raise _ => _ end] =>
        destruct r eqn:?; cbv beta iota delta [fst snd]
    end.

(** What the operator that failed can have raised. *)
Ltac classify_error :=
  match goal with
  | H : Py.mul _ _ = Raise _ |- _ => apply mul_error in H
  | H : Py.add _ _ = Raise _ |- _ => apply add_error in H
  | H : Py.sub _ _ = Raise _ |- _ => apply sub_error in H
  | H : Py.pow_2 _ _ = Raise _ |- _ => apply pow_2_error in H
  | H : Py.truediv _ _ = Raise _ |- _ =>
      apply truediv_error in H; destruct H as [H | [H ?]]
  | H : Py.floordiv _ _ = Raise _ |- _ =>
      apply floordiv_error in H; destruct H as [H | [H ?]]
  end; subst.



(** With divisors above zero, [OverflowError] is all that can be raised. *)
Ltac overflow_only :=
  let e := fresh "e" in let H := fresh "H" in
  intros e; run_methods;
  intro H; try discriminate; try (injection H as <-);
  classify_error; try reflexivity; try discriminate; congruence.

Lemma read_package_inv (code : string) (data : list num) (o : object) :
  read_package code data = Ok o ->
  (exists a d wt, data = [a; d; wt] /\ o = a_Running a d wt)
  \/ (exists a d wt ht, data = [a; d; wt; ht] /\ o = a_SportsWalking a d wt ht)
  \/ (exists a d wt lp cp,
        data = [a; d; wt; lp; cp] /\ o = a_Swimming a d wt lp cp).
Proof.
  unfold read_package. cbn [assoc activities].
  destruct (code =? "SWM")%string.
  { destruct data as [| a [| d [| wt [| lp [| cp [| x data]]]]]];
      try discriminate.
    intros [= <-]. right. right. repeat eexists. }
  destruct (code =? "RUN")%string.
  { destruct data as [| a [| d [| wt [| x data]]]]; try discriminate.
    intros [= <-]. left. repeat eexists. }
  destruct (code =? "WLK")%string; [| discriminate].
  destruct data as [| a [| d [| wt [| ht [| x data]]]]]; try discriminate.
  intros [= <-]. right. left. repeat eexists.
Qed.

Section Claims.

(** The C library's [pow]. *)
Variable libm_pow : F64.float -> F64.float -> F64.float * bool.

(** C1.  For a [Running] built from (action, duration, weight) with a
    duration above zero, [get_spent_calories] is
    [((18 * mean_speed - 20) * weight / 1000) * (duration * 60)] with
    [mean_speed = action * 0.65 / 1000 / duration], operation for operation
    in Python's arithmetic; the call returns that float, unless an int
    operand is too large for a float, which is an [OverflowError] in the
    method as in the formula. *)
Theorem Running_get_spent_calories_formula (a d wt : num) (out : list string) :
  Py.positive d = true ->
  read_package "RUN" [a; d; wt] = Ok (a_Running a d wt)
  /\ value get_mean_speed (mkWorld (a_Running a d wt) out)
     = Spec.mean_speed a d
  /\ value (get_spent_calories libm_pow) (mkWorld (a_Running a d wt) out)
     = Spec.running_calories a d wt
  /\ (forall e,
        value (get_spent_calories libm_pow) (mkWorld (a_Running a d wt) out)
        = Raise e -> e = OverflowError).
Proof.
  intros Hd. split; [reflexivity |].
  split; [run_methods; reflexivity |].
  split; [run_methods; reflexivity |].
  overflow_only.
Qed.


(** C3.  For a [Swimming] with a duration above zero, [get_mean_speed] is
    [(length_pool * count_pool / 1000) / duration], returned unless an int
    operand overflows; two instances that agree on the pool length, the lap
    count and the duration have the same mean speed, whatever their action
    counts (and weights). *)
Theorem Swimming_get_mean_speed_ignores_action
    (a a' d wt wt' lp cp : num) (out out' : list string) :
  Py.positive d = true ->
  read_package "SWM" [a; d; wt; lp; cp] = Ok (a_Swimming a d wt lp cp)
  /\ value get_mean_speed (mkWorld (a_Swimming a d wt lp cp) out)
     = Spec.swimming_mean_speed lp cp d
  /\ (forall e,
        value get_mean_speed (mkWorld (a_Swimming a d wt lp cp) out)
        = Raise e -> e = OverflowError)
  /\ value get_mean_speed (mkWorld (a_Swimming a d wt lp cp) out)
     = value get_mean_speed (mkWorld (a_Swimming a' d wt' lp cp) out').
Proof.
  intros Hd. split; [reflexivity |].
  split; [run_methods; reflexivity |].
  split; [overflow_only |].
  run_methods; reflexivity.
Qed.

(** C4, corrected.  For [RUN] with [15000, 1, 75] the script prints one
    line: distance 9.750 km, speed 9.750 km/h and 699.750 kcal, which is
    ((18 * 9.75 - 20) * 75 / 1000) * 60. *)
Theorem run_report_line :
  script libm_pow [("RUN", [PyInt 15000; PyInt 1; PyInt 75])] []
  = (Ok tt,
     ["Тип тренировки: Running; Длительность: 1.000 ч.; Дистанция: 9.750 км; Ср. скорость: 9.750 км/ч; Потрачено ккал: 699.750."]).
Proof. vm_compute. reflexivity. Qed.

(** C5, corrected.  For [SWM] with [720, 1, 80, 25, 40] the report has
    duration 1.000 h, distance 0.994 km (720 strokes of 1.38 m), speed
    1.000 km/h and 336.000 kcal. *)
Theorem swimming_report_metrics (out : list string) :
  exists (o : object) (info : InfoMessage),
    read_package "SWM" [PyInt 720; PyInt 1; PyInt 80; PyInt 25; PyInt 40]
    = Ok o
    /\ show_training_info libm_pow (mkWorld o out) = (Ok info, mkWorld o out)
    /\ training_type info = "Swimming"
    /\ Py.format_3f (duration info) = Ok "1.000"
    /\ Py.format_3f (distance info) = Ok "0.994"
    /\ Py.format_3f (speed info) = Ok "1.000"
    /\ Py.format_3f (calories info) = Ok "336.000".
Proof.
  eexists. eexists. split; [reflexivity |].
  split; [vm_compute; reflexivity |].
  repeat split; vm_compute; reflexivity.
Qed.

(** C6, corrected.  A record whose label is one line and whose four
    numbers are finite renders as a single line: the label, then duration,
    distance, speed and calories in that order, each written with exactly
    three digits after the decimal point, in the fixed text with the units. *)
Theorem get_message_well_rendered (m : InfoMessage) :
  Spec.one_line (training_type m) = true ->
  finite (duration m) = true ->
  finite (distance m) = true ->
  finite (speed m) = true ->
  finite (calories m) = true ->
  Spec.well_rendered m.
Proof.
  intros Hl Hd Hs Hv Hc.
  destruct (format_3f_shape _ Hd) as (d & Ed & Fd & Ld).
  destruct (format_3f_shape _ Hs) as (s & Es & Fs & Ls).
  destruct (format_3f_shape _ Hv) as (v & Ev & Fv & Lv).
  destruct (format_3f_shape _ Hc) as (c & Ec & Fc & Lc).
  exists d, s, v, c. repeat (split; [assumption |]).
  split.
  - unfold InfoMessage_get_message. rewrite Ed, Es, Ev, Ec. reflexivity.
  - unfold Spec.report_line.
    rewrite !one_line_app, Hl, Ld, Ls, Lv, Lc. reflexivity.
Qed.

(** C7.  A code outside SWM, RUN and WLK makes [read_package] raise a
    [ValueError] whose message names the code and lists exactly
    [SWM, RUN, WLK], and no instance is built; each of the three codes, with
    the arguments of its class, builds an instance of that class holding the
    arguments in their positions: a registered code is the call of its class
    on the arguments. *)
Theorem read_package_dispatch :
  (forall (code : string) (data : list num),
      code <> "SWM" -> code <> "RUN" -> code <> "WLK" ->
      read_package code data
      = Raise (ValueError
                 (code ++ " is not a supported workout type (try one of these: SWM, RUN, WLK)")))
  /\ map fst activities = ["SWM"; "RUN"; "WLK"]
  /\ (forall a d wt lp cp,
        read_package "SWM" [a; d; wt; lp; cp] = Ok (a_Swimming a d wt lp cp))
  /\ (forall a d wt,
        read_package "RUN" [a; d; wt] = Ok (a_Running a d wt))
  /\ (forall a d wt ht,
        read_package "WLK" [a; d; wt; ht] = Ok (a_SportsWalking a d wt ht))
  /\ (forall code cls data,
        assoc code activities = Some cls ->
        read_package code data = new cls data).
Proof.
  split; [| repeat split];
    [| intros code cls data H; unfold read_package; rewrite H; reflexivity].
  intros code data H1 H2 H3. unfold read_package. cbn [assoc activities].
  destruct (String.eqb_spec code "SWM"); [contradiction |].
  destruct (String.eqb_spec code "RUN"); [contradiction |].
  destruct (String.eqb_spec code "WLK"); [contradiction |].
  reflexivity.
Qed.

(** C8.  Two calls of [show_training_info] in a row, on an instance of any
    of the classes and in any state: the second returns the record the first
    returned (or raises what the first raised), and the state after them is
    the state before them. *)
Theorem show_training_info_twice (w : world) :
  twice (show_training_info libm_pow) w
  = (match value (show_training_info libm_pow) w with
     | Ok info => Ok (info, info)
     | Raise e => Raise e
     end, w).
Proof.
  unfold twice, bind.
  rewrite (pure_run _ w (pure_show_training_info libm_pow)).
  destruct (value (show_training_info libm_pow) w) as [info | e] eqn:E;
    [| reflexivity].
  rewrite (pure_run _ w (pure_show_training_info libm_pow)), E.
  reflexivity.
Qed.

(** C9.  [get_spent_calories] of the base class raises
    [NotImplementedError] and returns nothing, in every state; on an
    instance of [Running], [SportsWalking] or [Swimming] the call runs the
    class's own method, which never raises [NotImplementedError]. *)
Theorem base_get_spent_calories_not_implemented :
  (forall w, Training_get_spent_calories w = (Raise NotImplementedError, w))
  /\ (forall dict out,
        get_spent_calories libm_pow (mkWorld (mkObject Training dict) out)
        = (Raise NotImplementedError, mkWorld (mkObject Training dict) out))
  /\ (forall dict out,
        get_spent_calories libm_pow (mkWorld (mkObject Running dict) out)
        = Running_get_spent_calories (mkWorld (mkObject Running dict) out)
        /\ value (get_spent_calories libm_pow)
                 (mkWorld (mkObject Running dict) out)
           <> Raise NotImplementedError)
  /\ (forall dict out,
        get_spent_calories libm_pow (mkWorld (mkObject SportsWalking dict) out)
        = SportsWalking_get_spent_calories libm_pow
            (mkWorld (mkObject SportsWalking dict) out)
        /\ value (get_spent_calories libm_pow)
                 (mkWorld (mkObject SportsWalking dict) out)
           <> Raise NotImplementedError)
  /\ (forall dict out,
        get_spent_calories libm_pow (mkWorld (mkObject Swimming dict) out)
        = Swimming_get_spent_calories (mkWorld (mkObject Swimming dict) out)
        /\ value (get_spent_calories libm_pow)
                 (mkWorld (mkObject Swimming dict) out)
           <> Raise NotImplementedError).
Proof.
  repeat split; try reflexivity; intros H.
  - exact (implemented_Running_get_spent_calories _ _ H eq_refl).
  - exact (implemented_SportsWalking_get_spent_calories libm_pow _ _ H eq_refl).
  - exact (implemented_Swimming_get_spent_calories _ _ H eq_refl).
Qed.


End Claims.

(** ** The theorems at the inputs of the script *)

Lemma Running_get_spent_calories_formula_witness :
  Py.positive (PyInt 1) = true
  /\ value (get_spent_calories Py.libm_pow_ieee)
       (mkWorld (a_Running (PyInt 15000) (PyInt 1) (PyInt 75)) [])
     = Spec.running_calories (PyInt 15000) (PyInt 1) (PyInt 75)
  /\ Spec.running_calories (PyInt 15000) (PyInt 1) (PyInt 75)
     = Ok (PyFloat (F64.literal 69975 100)).
Proof.
  split; [reflexivity |]. split; [| vm_compute; reflexivity].
  apply (Running_get_spent_calories_formula Py.libm_pow_ieee
           (PyInt 15000) (PyInt 1) (PyInt 75) [] eq_refl).
Defined.


Lemma Swimming_get_mean_speed_ignores_action_witness :
  Py.positive (PyInt 1) = true
  /\ value get_mean_speed
       (mkWorld
          (a_Swimming (PyInt 720) (PyInt 1) (PyInt 80) (PyInt 25) (PyInt 40))
          [])
     = value get_mean_speed
         (mkWorld
            (a_Swimming (PyInt 0) (PyInt 1) (PyInt 80) (PyInt 25) (PyInt 40))
            [])
  /\ value get_mean_speed
       (mkWorld
          (a_Swimming (PyInt 720) (PyInt 1) (PyInt 80) (PyInt 25) (PyInt 40))
          [])
     = Ok (PyFloat F64.one).
Proof.
  split; [reflexivity |]. split; [| vm_compute; reflexivity].
  apply (Swimming_get_mean_speed_ignores_action
           (PyInt 720) (PyInt 0) (PyInt 1) (PyInt 80) (PyInt 80)
           (PyInt 25) (PyInt 40) [] [] eq_refl).
Defined.

Lemma get_message_well_rendered_witness :
  Spec.well_rendered
    (mkInfoMessage "Running" (PyInt 1) (PyFloat (F64.literal 975 100))
       (PyFloat (F64.literal 975 100)) (PyFloat (F64.literal 69975 100))).
Proof.
  apply get_message_well_rendered; reflexivity.
Defined.

Lemma read_package_dispatch_witness :
  read_package "BIKE" [PyInt 1; PyInt 2; PyInt 3]
  = Raise (ValueError
             "BIKE is not a supported workout type (try one of these: SWM, RUN, WLK)").
Proof.
  apply (proj1 read_package_dispatch); discriminate.
Defined.


(** ** What the code does where the specification says otherwise *)

(** C4.  The line printed for [RUN] with [15000, 1, 75] is not the one with
    581.250 kcal. *)
Lemma run_report_is_not_581_250 :
  script Py.libm_pow_ieee [("RUN", [PyInt 15000; PyInt 1; PyInt 75])] []
  <> (Ok tt,
      ["Тип тренировки: Running; Длительность: 1.000 ч.; Дистанция: 9.750 км; Ср. скорость: 9.750 км/ч; Потрачено ккал: 581.250."]).
Proof. vm_compute. discriminate. Qed.

(** C5.  The report for [SWM] with [720, 1, 80, 25, 40] does not have the
    distance 0.468 km beside 1.000 km/h, 336.000 kcal and 1.000 h. *)
Lemma swimming_distance_is_not_0_468 :
  ~ exists (o : object) (info : InfoMessage) (w : world),
      read_package "SWM" [PyInt 720; PyInt 1; PyInt 80; PyInt 25; PyInt 40]
      = Ok o
      /\ show_training_info Py.libm_pow_ieee (mkWorld o []) = (Ok info, w)
      /\ Py.format_3f (distance info) = Ok "0.468"
      /\ Py.format_3f (speed info) = Ok "1.000"
      /\ Py.format_3f (calories info) = Ok "336.000"
      /\ Py.format_3f (duration info) = Ok "1.000".
Proof.
  intros (o & info & w & Ho & Hi & Hd & _).
  vm_compute in Ho. injection Ho as <-.
  vm_compute in Hi. injection Hi as <- _.
  vm_compute in Hd. discriminate.
Qed.

(** C6.  The record of [RUN] with [15000, 5e-324, 75] has an infinite
    speed, which is written [inf]: not a number with three digits after the
    point.  A record whose label has a line feed is not rendered as a single
    line. *)
Lemma infinite_speed_not_well_rendered :
  value (show_training_info Py.libm_pow_ieee)
    (mkWorld
       (a_Running (PyInt 15000) (PyFloat (S754_finite false 1 (-1074)))
          (PyInt 75)) [])
  = Ok (mkInfoMessage "Running"
          (PyFloat (S754_finite false 1 (-1074)))
          (PyFloat (F64.literal 975 100))
          (PyFloat (S754_infinity false))
          (PyFloat (S754_infinity false)))
  /\ InfoMessage_get_message
       (mkInfoMessage "Running"
          (PyFloat (S754_finite false 1 (-1074)))
          (PyFloat (F64.literal 975 100))
          (PyFloat (S754_infinity false))
          (PyFloat (S754_infinity false)))
     = Ok "Тип тренировки: Running; Длительность: 0.000 ч.; Дистанция: 9.750 км; Ср. скорость: inf км/ч; Потрачено ккал: inf."
  /\ ~ Spec.well_rendered
        (mkInfoMessage "Running"
           (PyFloat (S754_finite false 1 (-1074)))
           (PyFloat (F64.literal 975 100))
           (PyFloat (S754_infinity false))
           (PyFloat (S754_infinity false)))
  /\ ~ Spec.well_rendered
        (mkInfoMessage (String "010" "Running")
           (PyInt 1) (PyInt 1) (PyInt 1) (PyInt 1)).
Proof.
  split; [vm_compute; reflexivity |].
  split; [vm_compute; reflexivity |].
  split.
  - intros (d & s & v & c & _ & _ & Hv & _ & _ & _ & Fv & _).
    vm_compute in Hv. injection Hv as <-. discriminate.
  - intros (d & s & v & c & Hd & Hs & Hv & Hc & _ & _ & _ & _ & _ & Hl).
    vm_compute in Hd, Hs, Hv, Hc.
    injection Hd as <-. injection Hs as <-.
    injection Hv as <-. injection Hc as <-.
    vm_compute in Hl. discriminate.
Qed.


(** * Further properties of the code *)

(** ** The factory *)

(** What [read_package] can return, with the code that made it. *)
Lemma read_package_cases (code : string) (data : list num) (o : object) :
  read_package code data = Ok o ->
  (code = "RUN" /\ exists a d wt, data = [a; d; wt] /\ o = a_Running a d wt)
  \/ (code = "WLK"
      /\ exists a d wt ht, data = [a; d; wt; ht] /\ o = a_SportsWalking a d wt ht)
  \/ (code = "SWM"
      /\ exists a d wt lp cp,
           data = [a; d; wt; lp; cp] /\ o = a_Swimming a d wt lp cp).
Proof.
  unfold read_package. cbn [assoc activities].
  destruct (String.eqb_spec code "SWM") as [-> |].
  { destruct data as [| a [| d [| wt [| lp [| cp [| x data]]]]]];
      try discriminate.
    intros [= <-]. right. right. split; [reflexivity |]. repeat eexists. }
  destruct (String.eqb_spec code "RUN") as [-> |].
  { destruct data as [| a [| d [| wt [| x data]]]]; try discriminate.
    intros [= <-]. left. split; [reflexivity |]. repeat eexists. }
  destruct (String.eqb_spec code "WLK") as [-> |]; [| discriminate].
  destruct data as [| a [| d [| wt [| ht [| x data]]]]]; try discriminate.
  intros [= <-]. right. left. split; [reflexivity |]. repeat eexists.
Qed.

(** X1.  [read_package] returns an instance exactly when the code is
    registered and the arguments are as many as the constructor of its class
    takes; the instance then has that class and holds the arguments, in
    their order, as its attributes.  A registered code with another number
    of arguments is a [TypeError]. *)
Theorem read_package_succeeds_iff (code : string) (data : list num) :
  ((exists o, read_package code data = Ok o)
   <-> exists cls, assoc code activities = Some cls
                   /\ List.length data = arity cls)
  /\ (forall o cls,
        read_package code data = Ok o ->
        assoc code activities = Some cls ->
        ob_type o = cls /\ map snd (ob_dict o) = data)
  /\ (forall cls,
        assoc code activities = Some cls ->
        List.length data <> arity cls ->
        read_package code data = Raise TypeError).
Proof.
  split; [split |]; [| | split].
  - intros [o Ho].
    destruct (read_package_cases _ _ _ Ho)
      as [[-> (a & d & wt & -> & _)] | [[-> (a & d & wt & ht & -> & _)]
                                      | [-> (a & d & wt & lp & cp & -> & _)]]];
      eexists; split; reflexivity.
  - intros (cls & Hc & Hl). unfold read_package. rewrite Hc.
    cbn [assoc activities] in Hc.
    destruct (code =? "SWM")%string; [injection Hc as <- |].
    { destruct data as [| a [| d [| wt [| lp [| cp [| x data]]]]]];
        try discriminate. eexists. reflexivity. }
    destruct (code =? "RUN")%string; [injection Hc as <- |].
    { destruct data as [| a [| d [| wt [| x data]]]]; try discriminate.
      eexists. reflexivity. }
    destruct (code =? "WLK")%string; [injection Hc as <- | discriminate].
    destruct data as [| a [| d [| wt [| ht [| x data]]]]]; try discriminate.
    eexists. reflexivity.
  - intros o cls Ho Hc.
    destruct (read_package_cases _ _ _ Ho)
      as [[-> (a & d & wt & -> & ->)] | [[-> (a & d & wt & ht & -> & ->)]
                                       | [-> (a & d & wt & lp & cp & -> & ->)]]];
      cbv in Hc; injection Hc as <-; split; reflexivity.
  - intros cls Hc Hl. unfold read_package. rewrite Hc.
    cbn [assoc activities] in Hc.
    destruct (code =? "SWM")%string; [injection Hc as <- |].
    { destruct data as [| a [| d [| wt [| lp [| cp [| x data]]]]]];
        try reflexivity. contradiction Hl. reflexivity. }
    destruct (code =? "RUN")%string; [injection Hc as <- |].
    { destruct data as [| a [| d [| wt [| x data]]]]; try reflexivity.
      contradiction Hl. reflexivity. }
    destruct (code =? "WLK")%string; [injection Hc as <- | discriminate].
    destruct data as [| a [| d [| wt [| ht [| x data]]]]]; try reflexivity.
    contradiction Hl. reflexivity.
Qed.

(** ** The methods *)

Lemma format_3f_error (a : num) (e : exn) :
  Py.format_3f a = Raise e -> e = OverflowError.
Proof.
  unfold Py.format_3f.
  destruct (Py.to_float a) as [x | e'] eqn:E; cbn [rbind]; [discriminate |].
  intros [= <-]. exact (to_float_error _ _ E).
Qed.

Lemma get_message_error (m : InfoMessage) (e : exn) :
  InfoMessage_get_message m = Raise e -> e = OverflowError.
Proof.
  unfold InfoMessage_get_message.
  destruct (Py.format_3f (duration m)) eqn:E1; cbn [rbind];
    [| intros [= <-]; exact (format_3f_error _ _ E1)].
  destruct (Py.format_3f (distance m)) eqn:E2; cbn [rbind];
    [| intros [= <-]; exact (format_3f_error _ _ E2)].
  destruct (Py.format_3f (speed m)) eqn:E3; cbn [rbind];
    [| intros [= <-]; exact (format_3f_error _ _ E3)].
  destruct (Py.format_3f (calories m)) eqn:E4; cbn [rbind];
    [discriminate | intros [= <-]; exact (format_3f_error _ _ E4)].
Qed.

(** The report is made of what the four reads return, in their order. *)
Lemma show_training_info_value
    (libm_pow : F64.float -> F64.float -> F64.float * bool) (w : world) :
  value (show_training_info libm_pow) w
  = (d <- value (getattr "duration") w ;;
     s <- value get_distance w ;;
     v <- value get_mean_speed w ;;
     c <- value (get_spent_calories libm_pow) w ;;
     Ok (mkInfoMessage (class_name (ob_type (self w))) d s v c))%result.
Proof.
  unfold show_training_info, Training_show_training_info, value, bind.
  cbn [type_name fst].
  rewrite (pure_run _ w (pure_getattr "duration")).
  destruct (value (getattr "duration") w) as [d | e]; [| reflexivity].
  rewrite (pure_run _ w pure_get_distance).
  destruct (value get_distance w) as [s | e]; [| reflexivity].
  rewrite (pure_run _ w pure_get_mean_speed).
  destruct (value get_mean_speed w) as [v | e]; [| reflexivity].
  rewrite (pure_run _ w (pure_get_spent_calories libm_pow)).
  destruct (value (get_spent_calories libm_pow) w) as [c | e]; reflexivity.
Qed.

(** [main] is the report, its rendering and one [print]. *)
Lemma main_run (libm_pow : F64.float -> F64.float -> F64.float * bool)
    (w : world) :
  main libm_pow w = main_outcome (value (show_training_info libm_pow) w) w.
Proof.
  unfold main, bind.
  rewrite (pure_run _ w (pure_show_training_info libm_pow)).
  destruct (value (show_training_info libm_pow) w) as [info | e];
    [| reflexivity].
  cbn [main_outcome]. unfold lift.
  destruct (InfoMessage_get_message info); reflexivity.
Qed.

(** An exception of arithmetic is all that a failed operator raised. *)
Ltac arithmetic_only :=
  let e := fresh "e" in let H := fresh "H" in
  intros e; run_methods;
  intro H; try discriminate; try (injection H as <-);
  unfold arithmetic_error;
  classify_error; auto.

(** On an instance the factory built the duration is there, and each
    method fails with an exception of arithmetic only. *)
Lemma factory_methods_arithmetic
    (libm_pow : F64.float -> F64.float -> F64.float * bool)
    (code : string) (data : list num) (o : object) (out : list string) :
  read_package code data = Ok o ->
  (exists d, value (getattr "duration") (mkWorld o out) = Ok d)
  /\ (forall e, value get_distance (mkWorld o out) = Raise e ->
                arithmetic_error e)
  /\ (forall e, value get_mean_speed (mkWorld o out) = Raise e ->
                arithmetic_error e)
  /\ (forall e, value (get_spent_calories libm_pow) (mkWorld o out) = Raise e ->
                arithmetic_error e).
Proof.
  intros Ho.
  destruct (read_package_inv _ _ _ Ho)
    as [(a & d & wt & _ & ->) | [(a & d & wt & ht & _ & ->)
                                | (a & d & wt & lp & cp & _ & ->)]];
    (split; [eexists; reflexivity |]); repeat split; arithmetic_only.
Qed.

Section Further.

(** The C library's [pow]. *)
Variable libm_pow : F64.float -> F64.float -> F64.float * bool.

(** X2.  The distance of an instance the factory built is
    [action * LEN_STEP / 1000] with the step of its class: 1.38 for a
    [Swimming], which overrides it, and 0.65 for the two classes that
    inherit it.  Nothing else enters it (not the duration, the weight or
    the pool), and it fails only with the overflow of an int too large for
    a float. *)
Theorem get_distance_uses_class_step
    (code : string) (data : list num) (o : object) (out : list string) :
  read_package code data = Ok o ->
  exists a,
    nth_error data 0 = Some a
    /\ value get_distance (mkWorld o out)
       = distance_with_step
           (PyFloat (if (code =? "SWM")%string
                     then F64.literal 138 100 else F64.literal 65 100)) a
    /\ (forall e, value get_distance (mkWorld o out) = Raise e ->
                  e = OverflowError).
Proof.
  intros Ho.
  destruct (read_package_cases _ _ _ Ho)
    as [[-> (a & d & wt & -> & ->)] | [[-> (a & d & wt & ht & -> & ->)]
                                     | [-> (a & d & wt & lp & cp & -> & ->)]]];
    exists a; (split; [reflexivity |]);
    (split; [run_methods; reflexivity | overflow_only]).
Qed.

(** X3.  The mean speed of a [Running] or a [SportsWalking] is its distance
    divided by its duration: it fails where the distance fails, and two
    such instances with the same action count and duration have the same
    mean speed, whatever their weights and heights. *)
Theorem mean_speed_is_distance_over_duration
    (code : string) (data : list num) (o : object) (out : list string) :
  read_package code data = Ok o ->
  code <> "SWM" ->
  exists a d,
    nth_error data 0 = Some a /\ nth_error data 1 = Some d
    /\ value get_mean_speed (mkWorld o out)
       = (s <- value get_distance (mkWorld o out) ;; Py.truediv s d)%result
    /\ value get_mean_speed (mkWorld o out) = Spec.mean_speed a d.
Proof.
  intros Ho Hc.
  destruct (read_package_cases _ _ _ Ho)
    as [[-> (a & d & wt & -> & ->)] | [[-> (a & d & wt & ht & -> & ->)]
                                     | [-> (a & d & wt & lp & cp & -> & ->)]]];
    [| | contradiction];
    exists a, d; (split; [reflexivity |]); (split; [reflexivity |]);
    split; run_methods; reflexivity.
Qed.

(** X4.  The calories of a [Swimming] are
    [(mean_speed + 1.1) * 2 * weight] on the mean speed of the pool: the
    action count does not enter them, and with a duration above zero they
    fail only with the overflow of an int operand. *)
Theorem Swimming_get_spent_calories_formula
    (a a' d wt lp cp : num) (out out' : list string) :
  Py.positive d = true ->
  value (get_spent_calories libm_pow) (mkWorld (a_Swimming a d wt lp cp) out)
  = swimming_calories lp cp d wt
  /\ value (get_spent_calories libm_pow)
       (mkWorld (a_Swimming a d wt lp cp) out)
     = value (get_spent_calories libm_pow)
         (mkWorld (a_Swimming a' d wt lp cp) out')
  /\ (forall e,
        value (get_spent_calories libm_pow)
          (mkWorld (a_Swimming a d wt lp cp) out) = Raise e ->
        e = OverflowError).
Proof.
  intros Hd. split; [run_methods; reflexivity |].
  split; [run_methods; reflexivity |].
  overflow_only.
Qed.

(** X5.  An instance of the base class cannot be reported:
    [show_training_info] never returns a record on it, and it raises
    [NotImplementedError] as soon as the duration, the distance and the
    mean speed are there. *)
Theorem base_show_training_info_fails
    (dict : list (string * num)) (out : list string) :
  (forall info,
      value (show_training_info libm_pow)
        (mkWorld (mkObject Training dict) out) <> Ok info)
  /\ (forall d s v,
        value (getattr "duration") (mkWorld (mkObject Training dict) out)
        = Ok d ->
        value get_distance (mkWorld (mkObject Training dict) out) = Ok s ->
        value get_mean_speed (mkWorld (mkObject Training dict) out) = Ok v ->
        value (show_training_info libm_pow)
          (mkWorld (mkObject Training dict) out)
        = Raise NotImplementedError).
Proof.
  set (w := mkWorld (mkObject Training dict) out).
  assert (E : value (show_training_info libm_pow) w
              = (d <- value (getattr "duration") w ;;
                 s <- value get_distance w ;;
                 v <- value get_mean_speed w ;;
                 Raise NotImplementedError)%result).
  { rewrite show_training_info_value.
    destruct (value (getattr "duration") w); [| reflexivity].
    destruct (value get_distance w); [| reflexivity].
    destruct (value get_mean_speed w); reflexivity. }
  split.
  - intros info. rewrite E.
    destruct (value (getattr "duration") w); [| discriminate].
    destruct (value get_distance w); [| discriminate].
    destruct (value get_mean_speed w); discriminate.
  - intros d s v Hd Hs Hv. rewrite E, Hd, Hs, Hv. reflexivity.
Qed.

(** X6.  On an instance the factory built, a report, and [main] with it,
    can fail only with an exception of arithmetic, [ZeroDivisionError] or
    [OverflowError]: every attribute the methods read was set by the
    constructor or is a constant of the class, and every method called is
    implemented. *)
Theorem report_fails_with_arithmetic_only
    (code : string) (data : list num) (o : object) (out : list string) :
  read_package code data = Ok o ->
  (forall e, value (show_training_info libm_pow) (mkWorld o out) = Raise e ->
             arithmetic_error e)
  /\ (forall e, value (main libm_pow) (mkWorld o out) = Raise e ->
                arithmetic_error e).
Proof.
  intros Ho.
  destruct (factory_methods_arithmetic libm_pow _ _ _ out Ho)
    as ([d Hd] & Hs & Hv & Hc).
  assert (Hi : forall e,
             value (show_training_info libm_pow) (mkWorld o out) = Raise e ->
             arithmetic_error e).
  { intros e. rewrite show_training_info_value, Hd. cbn [rbind].
    destruct (value get_distance (mkWorld o out)) as [s | e1] eqn:E1;
      cbn [rbind]; [| intros [= <-]; apply Hs; reflexivity].
    destruct (value get_mean_speed (mkWorld o out)) as [v | e2] eqn:E2;
      cbn [rbind]; [| intros [= <-]; apply Hv; reflexivity].
    destruct (value (get_spent_calories libm_pow) (mkWorld o out))
      as [c | e3] eqn:E3; cbn [rbind]; [discriminate |].
    intros [= <-]. apply Hc. reflexivity. }
  split; [exact Hi |].
  intros e. unfold value. rewrite main_run.
  destruct (value (show_training_info libm_pow) (mkWorld o out))
    as [info | e'] eqn:E; cbn [main_outcome].
  - destruct (InfoMessage_get_message info) eqn:Em; cbn [fst];
      [discriminate |].
    intros [= <-]. right. exact (get_message_error _ _ Em).
  - cbn [fst]. intros [= <-]. apply Hi. reflexivity.
Qed.

(** ** [main] and the script *)

(** X7.  [main] prints the rendered report, one line after the text
    already printed, and leaves the instance as it was; when the report or
    its rendering fails, [main] raises that exception and prints nothing. *)
Theorem main_prints_one_line_or_nothing (w : world) :
  (forall u w',
      main libm_pow w = (Ok u, w') ->
      self w' = self w
      /\ exists info line,
           value (show_training_info libm_pow) w = Ok info
           /\ InfoMessage_get_message info = Ok line
           /\ stdout w' = (stdout w ++ [line])%list)
  /\ (forall e w', main libm_pow w = (Raise e, w') ->
        w' = w
        /\ (value (show_training_info libm_pow) w = Raise e
            \/ exists info,
                 value (show_training_info libm_pow) w = Ok info
                 /\ InfoMessage_get_message info = Raise e)).
Proof.
  rewrite main_run.
  destruct (value (show_training_info libm_pow) w) as [info | e0];
    cbn [main_outcome].
  - destruct (InfoMessage_get_message info) as [line | e1] eqn:Em; split.
    + intros u w' [= _ <-]. split; [reflexivity |].
      exists info, line. repeat split; (reflexivity || assumption).
    + discriminate.
    + discriminate.
    + intros e w' [= <- <-]. split; [reflexivity |].
      right. exists info. split; [reflexivity | assumption].
  - split; [discriminate |].
    intros e w' [= <- <-]. split; [reflexivity |]. left. reflexivity.
Qed.

(** One turn of the loop. *)
Lemma script_cons (workout_type : string) (data : list num)
    (rest : list (string * list num)) (out : list string) :
  script libm_pow ((workout_type, data) :: rest) out
  = match read_package workout_type data with
    | Raise e => (Raise e, out)
    | Ok training =>
        match main_outcome
                (value (show_training_info libm_pow) (mkWorld training out))
                (mkWorld training out) with
        | (Ok _, w) => script libm_pow rest (stdout w)
        | (Raise e, w) => (Raise e, stdout w)
        end
    end.
Proof.
  cbn [script]. destruct (read_package workout_type data); [| reflexivity].
  unfold run_main. rewrite main_run. reflexivity.
Qed.

Lemma script_app (p1 p2 : list (string * list num)) :
  forall out,
    script libm_pow (p1 ++ p2) out
    = match script libm_pow p1 out with
      | (Ok _, out1) => script libm_pow p2 out1
      | (Raise e, out1) => (Raise e, out1)
      end.
Proof.
  induction p1 as [| [workout_type data] p1 IH]; intros out.
  - reflexivity.
  - cbn [List.app script].
    destruct (read_package workout_type data) as [training | e];
      [| reflexivity].
    destruct (run_main libm_pow training out) as [[u | e] w];
      [apply IH | reflexivity].
Qed.

(** X8.  The script reports its packages in their order: a list of
    packages followed by another is the first list run, then the second on
    the text the first left.  The first exception ends the run: the packages
    after it print nothing, and a package with an unregistered code ends it
    with the [ValueError] of the factory. *)
Theorem script_runs_in_order (p1 p2 : list (string * list num))
    (out out1 : list string) :
  (script libm_pow p1 out = (Ok tt, out1) ->
   script libm_pow (p1 ++ p2) out = script libm_pow p2 out1)
  /\ (forall e, script libm_pow p1 out = (Raise e, out1) ->
                script libm_pow (p1 ++ p2) out = (Raise e, out1))
  /\ (forall code data,
        script libm_pow p1 out = (Ok tt, out1) ->
        assoc code activities = None ->
        exists msg,
          script libm_pow (p1 ++ (code, data) :: p2) out
          = (Raise (ValueError msg), out1)).
Proof.
  repeat split.
  - intros H. rewrite script_app, H. reflexivity.
  - intros e H. rewrite script_app, H. reflexivity.
  - intros code data H Hc. rewrite script_app, H.
    cbn [script]. unfold read_package. rewrite Hc. eexists. reflexivity.
Qed.

(** X9.  The script keeps the text printed before it and adds at most one
    line for each package; when it ends without an exception it has added
    exactly one line for each package. *)
Theorem script_prints_a_line_per_package (ps : list (string * list num)) :
  forall out,
  exists lines,
    snd (script libm_pow ps out) = (out ++ lines)%list
    /\ (List.length lines <= List.length ps)%nat
    /\ (fst (script libm_pow ps out) = Ok tt ->
        List.length lines = List.length ps).
Proof.
  induction ps as [| [workout_type data] ps IH]; intros out.
  - exists []. cbn. rewrite app_nil_r. repeat split; auto.
  - rewrite script_cons.
    destruct (read_package workout_type data) as [training | e].
    2: { exists []. cbn. rewrite app_nil_r.
         repeat split; [lia | discriminate]. }
    destruct (value (show_training_info libm_pow) (mkWorld training out))
      as [info | e]; cbn [main_outcome].
    2: { exists []. cbn. rewrite app_nil_r.
         repeat split; [lia | discriminate]. }
    destruct (InfoMessage_get_message info) as [line | e].
    2: { exists []. cbn. rewrite app_nil_r.
         repeat split; [lia | discriminate]. }
    cbn [stdout].
    destruct (IH (out ++ [line])%list) as (lines & H1 & H2 & H3).
    exists (line :: lines). rewrite H1, <- app_assoc. cbn [List.app List.length].
    repeat split; [lia |]. intros H. rewrite (H3 H). reflexivity.
Qed.

End Further.

(** X10.  The script on its own three packages, with a C library exact on
    squares, prints the report of the swim, of the run and of the walk, in
    that order, and ends without an exception. *)
Theorem script_output :
  script Py.libm_pow_ieee packages []
  = (Ok tt,
     ["Тип тренировки: Swimming; Длительность: 1.000 ч.; Дистанция: 0.994 км; Ср. скорость: 1.000 км/ч; Потрачено ккал: 336.000.";
      "Тип тренировки: Running; Длительность: 1.000 ч.; Дистанция: 9.750 км; Ср. скорость: 9.750 км/ч; Потрачено ккал: 699.750.";
      "Тип тренировки: SportsWalking; Длительность: 1.000 ч.; Дистанция: 5.850 км; Ср. скорость: 5.850 км/ч; Потрачено ккал: 157.500."]).
Proof. vm_compute. reflexivity. Qed.

(** ** The rendering and the constructors *)

Lemma format_3f_in_range (a : num) :
  (exists s, Py.format_3f a = Ok s) <-> in_range a = true.
Proof.
  unfold Py.format_3f, in_range.
  destruct (Py.to_float a); cbn [rbind]; split;
    try reflexivity; try discriminate.
  - intros _. eexists. reflexivity.
  - intros [s H]. discriminate.
Qed.

(** X11.  [get_message] returns a line exactly when each of the four numbers
    is a float or an int within the float range: a float never makes it
    fail, be it infinite or not a number, and the line then starts with the
    label; an int too large for a float in one of the fields is an
    [OverflowError]. *)
Theorem get_message_returns_iff (m : InfoMessage) :
  ((exists line, InfoMessage_get_message m = Ok line)
   <-> in_range (duration m) = true /\ in_range (distance m) = true
       /\ in_range (speed m) = true /\ in_range (calories m) = true)
  /\ (forall line, InfoMessage_get_message m = Ok line ->
        exists rest,
          line = "Тип тренировки: " ++ training_type m
                 ++ "; Длительность: " ++ rest)
  /\ (forall e, InfoMessage_get_message m = Raise e -> e = OverflowError).
Proof.
  split; [| split; [| apply get_message_error]].
  - unfold InfoMessage_get_message.
    rewrite <- !format_3f_in_range.
    destruct (Py.format_3f (duration m)) as [d |]; cbn [rbind].
    2: { split; [intros [? H]; discriminate | intros ([? H] & _); discriminate]. }
    destruct (Py.format_3f (distance m)) as [s |]; cbn [rbind].
    2: { split; [intros [? H]; discriminate
                | intros (_ & [? H] & _); discriminate]. }
    destruct (Py.format_3f (speed m)) as [v |]; cbn [rbind].
    2: { split; [intros [? H]; discriminate
                | intros (_ & _ & [? H] & _); discriminate]. }
    destruct (Py.format_3f (calories m)) as [c |]; cbn [rbind].
    2: { split; [intros [? H]; discriminate
                | intros (_ & _ & _ & [? H]); discriminate]. }
    split; [intros _; repeat split; eexists; reflexivity
           | intros _; eexists; reflexivity].
  - intros line. unfold InfoMessage_get_message.
    destruct (Py.format_3f (duration m)) as [d |]; cbn [rbind];
      [| discriminate].
    destruct (Py.format_3f (distance m)) as [s |]; cbn [rbind];
      [| discriminate].
    destruct (Py.format_3f (speed m)) as [v |]; cbn [rbind];
      [| discriminate].
    destruct (Py.format_3f (calories m)) as [c |]; cbn [rbind];
      [| discriminate].
    intros [= <-]. eexists. reflexivity.
Qed.

Lemma assoc_assign_same {A : Type} (k : string) (v : A)
    (d : list (string * A)) :
  assoc k (assign k v d) = Some v.
Proof.
  induction d as [| [k' v'] d IH]; cbn [assign assoc].
  - rewrite String.eqb_refl. reflexivity.
  - destruct (String.eqb k k') eqn:E; cbn [assoc].
    + rewrite String.eqb_refl. reflexivity.
    + rewrite E. exact IH.
Qed.

Lemma assoc_assign_other {A : Type} (k n : string) (v : A)
    (d : list (string * A)) :
  n <> k -> assoc n (assign k v d) = assoc n d.
Proof.
  intros Hn. apply String.eqb_neq in Hn.
  induction d as [| [k' v'] d IH]; cbn [assign assoc].
  - rewrite Hn. reflexivity.
  - destruct (String.eqb_spec k k') as [<- |]; cbn [assoc].
    + rewrite Hn. reflexivity.
    + rewrite IH. reflexivity.
Qed.

(** X12.  The constructor of [Swimming], run on an instance in any state (a
    fresh one, or one that has attributes already), returns without an
    exception; afterwards each of its five parameters is read back as the
    attribute of its name, every other attribute of the instance is as it
    was, and so are its class and the text printed. *)
Theorem Swimming_init_sets_attributes
    (w : world) (a d wt lp cp : num) :
  value (Swimming___init__ a d wt lp cp) w = Ok tt
  /\ value (getattr "action") (after (Swimming___init__ a d wt lp cp) w) = Ok a
  /\ value (getattr "duration") (after (Swimming___init__ a d wt lp cp) w)
     = Ok d
  /\ value (getattr "weight") (after (Swimming___init__ a d wt lp cp) w)
     = Ok wt
  /\ value (getattr "length_pool") (after (Swimming___init__ a d wt lp cp) w)
     = Ok lp
  /\ value (getattr "count_pool") (after (Swimming___init__ a d wt lp cp) w)
     = Ok cp
  /\ (forall n,
        ~ In n ["action"; "duration"; "weight"; "length_pool"; "count_pool"] ->
        assoc n (ob_dict (self (after (Swimming___init__ a d wt lp cp) w)))
        = assoc n (ob_dict (self w)))
  /\ ob_type (self (after (Swimming___init__ a d wt lp cp) w))
     = ob_type (self w)
  /\ stdout (after (Swimming___init__ a d wt lp cp) w) = stdout w.
Proof.
  split; [reflexivity |].
  unfold value, after, getattr.
  cbn [Swimming___init__ Training___init__ bind setattr fst snd self ob_dict
       ob_type stdout].
  repeat split.
  - rewrite !assoc_assign_other, assoc_assign_same by discriminate. reflexivity.
  - rewrite !assoc_assign_other, assoc_assign_same by discriminate. reflexivity.
  - rewrite !assoc_assign_other, assoc_assign_same by discriminate. reflexivity.
  - rewrite !assoc_assign_other, assoc_assign_same by discriminate. reflexivity.
  - rewrite assoc_assign_same. reflexivity.
  - intros n Hn. cbn [In] in Hn.
    rewrite !assoc_assign_other by (intros ->; tauto). reflexivity.
Qed.

(** ** A run that cannot fail *)

Section Total.

(** The C library's [pow]. *)
Variable libm_pow : F64.float -> F64.float -> F64.float * bool.


End Total.

(** ** The floor division of a float by a larger one *)

Lemma digits2_pos_upper (p : positive) : Zpos p < 2 ^ Zpos (digits2_pos p).
Proof.
  induction p as [p IH | p IH |]; cbn [digits2_pos]; [| | reflexivity];
    rewrite Pos2Z.inj_succ, Z.pow_succ_r by lia; lia.
Qed.

Lemma shiftl_pos (m k : positive) :
  Z.shiftl (Zpos m) (Zpos k) = Zpos (Pos.iter xO m k).
Proof.
  cbn [Z.shiftl]. induction k as [| k IH] using Pos.peano_ind.
  - reflexivity.
  - rewrite !Pos.iter_succ, IH. reflexivity.
Qed.

Lemma digits2_pos_iter_xO (m k : positive) :
  digits2_pos (Pos.iter xO m k) = (digits2_pos m + k)%positive.
Proof.
  induction k as [| k IH] using Pos.peano_ind.
  - cbn. lia.
  - rewrite Pos.iter_succ. cbn [digits2_pos]. rewrite IH. lia.
Qed.

Lemma iter_pos_iter {A : Type} (f : A -> A) (n : positive) :
  forall x, iter_pos f n x = Pos.iter f x n.
Proof.
  induction n as [n IH | n IH |]; intros x; cbn [iter_pos Pos.iter].
  - rewrite !IH, <- !Pos.iter_swap. reflexivity.
  - rewrite !IH. reflexivity.
  - reflexivity.
Qed.

(** Shifting out the zeros that were shifted in is exact. *)
Lemma shr_iter_xO (m k : positive) :
  iter_pos shr_1 k (Build_shr_record (Zpos (Pos.iter xO m k)) false false)
  = Build_shr_record (Zpos m) false false.
Proof.
  rewrite iter_pos_iter.
  induction k as [| k IH] using Pos.peano_ind.
  - reflexivity.
  - rewrite Pos.iter_succ at 1. rewrite Pos.iter_succ, <- Pos.iter_swap.
    cbn [shr_1 orb]. exact IH.
Qed.

(** Rounding a valid float, given with [k] more low zero bits, returns
    it. *)
Lemma binary_round_aux_valid (s : bool) (m : positive) (e : Z) :
  bounded F64.prec F64.emax m e = true ->
  binary_round_aux F64.prec F64.emax s (Zpos m) e loc_Exact
  = S754_finite s m e.
Proof.
  intros Hb. unfold bounded, canonical_mantissa in Hb.
  apply andb_prop in Hb. destruct Hb as [Hc He].
  apply Z.eqb_eq in Hc.
  unfold binary_round_aux, shr_fexp, shr. cbn [Zdigits2 shr_record_of_loc].
  rewrite Hc, Z.sub_diag. cbn [shr_m loc_of_shr_record round_nearest_even].
  cbn [Zdigits2 shr_record_of_loc]. rewrite Hc, Z.sub_diag. cbn [shr_m].
  rewrite He. reflexivity.
Qed.

Lemma binary_round_aux_shifted (s : bool) (m k : positive) (e : Z) :
  bounded F64.prec F64.emax m e = true ->
  binary_round_aux F64.prec F64.emax s
    (Zpos (Pos.iter xO m k)) (e - Zpos k) loc_Exact
  = S754_finite s m e.
Proof.
  intros Hb. pose proof Hb as Hb'. unfold bounded, canonical_mantissa in Hb.
  apply andb_prop in Hb. destruct Hb as [Hc He].
  apply Z.eqb_eq in Hc.
  unfold binary_round_aux at 1. unfold shr_fexp at 1.
  cbn [Zdigits2 shr_record_of_loc].
  rewrite digits2_pos_iter_xO, Pos2Z.inj_add.
  replace (Zpos (digits2_pos m) + Zpos k + (e - Zpos k))
    with (Zpos (digits2_pos m) + e) by lia.
  rewrite Hc.
  replace (e - (e - Zpos k)) with (Zpos k) by lia.
  cbn [shr]. rewrite shr_iter_xO.
  cbn [shr_m loc_of_shr_record round_nearest_even].
  replace (e - Zpos k + Zpos k) with e by lia.
  unfold shr_fexp, shr. cbn [Zdigits2 shr_record_of_loc].
  rewrite Hc, Z.sub_diag. cbn [shr_m]. rewrite He. reflexivity.
Qed.

(** The remainder of a valid positive float by a larger one is itself. *)
Lemma fmod_small (mx my : positive) (ex ey : Z) (sy : bool) :
  bounded F64.prec F64.emax mx ex = true ->
  Z.shiftl (Zpos mx) (ex - Z.min ex ey) < Z.shiftl (Zpos my) (ey - Z.min ex ey) ->
  F64.fmod (S754_finite false mx ex) (S754_finite sy my ey)
  = S754_finite false mx ex.
Proof.
  intros Hb Hlt. pose proof Hb as Hb'.
  unfold bounded, canonical_mantissa in Hb'.
  apply andb_prop in Hb'. destruct Hb' as [Hc _]. apply Z.eqb_eq in Hc.
  unfold F64.fmod.
  assert (Hk : 0 <= ex - Z.min ex ey) by lia.
  set (e := Z.min ex ey) in *.
  rewrite Z.rem_small
    by (split; [apply Z.shiftl_nonneg; lia | assumption]).
  destruct (ex - e) as [| k | k] eqn:Ek; [| | lia].
  - cbn [Z.shiftl cond_Zopp binary_normalize]. unfold binary_round, shl_align.
    replace e with ex by lia. rewrite Hc, Z.sub_diag.
    apply binary_round_aux_valid. assumption.
  - rewrite shiftl_pos. cbn [cond_Zopp binary_normalize].
    unfold binary_round, shl_align.
    rewrite digits2_pos_iter_xO, Pos2Z.inj_add.
    replace (Zpos (digits2_pos mx) + Zpos k + e)
      with (Zpos (digits2_pos mx) + ex) by lia.
    rewrite Hc, Ek. replace e with (ex - Zpos k) by lia.
    apply binary_round_aux_shifted. assumption.
Qed.

Lemma sub_self (s : bool) (m : positive) (e : Z) :
  F64.sub (S754_finite s m e) (S754_finite s m e) = F64.zero.
Proof.
  unfold F64.sub, SFsub. rewrite Z.sub_diag. reflexivity.
Qed.

Lemma signbit_div_positive (mx my : positive) (ex ey : Z) :
  F64.signbit
    (F64.div (S754_finite false mx ex) (S754_finite false my ey)) = false.
Proof.
  unfold F64.div, SFdiv.
  destruct (SFdiv_core_binary _ _ _ _ _ _) as [[mz ez] lz].
  unfold binary_round_aux.
  destruct (shr_fexp _ _ mz ez lz) as [mrs' e'].
  destruct (shr_fexp _ _ _ e' loc_Exact) as [mrs'' e''].
  destruct (shr_m mrs''); try reflexivity.
  destruct (e'' <=? _); reflexivity.
Qed.

(** On valid positive floats the comparison [x < y] is that of the exact
    values. *)
Lemma ltb_exact (mx my : positive) (ex ey : Z) :
  bounded F64.prec F64.emax mx ex = true ->
  bounded F64.prec F64.emax my ey = true ->
  F64.ltb (S754_finite false mx ex) (S754_finite false my ey) = true ->
  Z.shiftl (Zpos mx) (ex - Z.min ex ey) < Z.shiftl (Zpos my) (ey - Z.min ex ey).
Proof.
  intros Hx Hy. unfold bounded, canonical_mantissa in Hx, Hy.
  apply andb_prop in Hx, Hy. destruct Hx as [Hx _], Hy as [Hy _].
  apply Z.eqb_eq in Hx, Hy.
  unfold fexp, emin, F64.prec, F64.emax in Hx, Hy.
  pose proof (digits2_pos_upper mx) as Ux.
  pose proof (digits2_pos_lower my) as Ly.
  unfold F64.ltb, SFltb, SFcompare.
  destruct (Z.compare_spec ex ey) as [-> | Hlt | Hgt]; [| | discriminate].
  - rewrite Z.min_id, Z.sub_diag. cbn [Z.shiftl].
    destruct (Pos.compare_cont Eq mx my) eqn:E; try discriminate.
    intros _. apply Pos.compare_lt_iff. exact E.
  - intros _. replace (Z.min ex ey) with ex by lia.
    rewrite Z.sub_diag. cbn [Z.shiftl].
    rewrite Z.shiftl_mul_pow2 by lia.
    assert (Hdx : Zpos (digits2_pos mx) <= 53) by lia.
    assert (Hdy : Zpos (digits2_pos my) = 53) by lia.
    rewrite Hdy in Ly.
    assert (H53 : Zpos mx < 2 ^ 53).
    { apply Z.lt_le_trans with (2 ^ Zpos (digits2_pos mx)); [assumption |].
      apply Z.pow_le_mono_r; lia. }
    assert (H2 : 2 ^ 1 <= 2 ^ (ey - ex)) by (apply Z.pow_le_mono_r; lia).
    change (2 ^ (53 - 1)) with 4503599627370496 in Ly.
    change (2 ^ 53) with 9007199254740992 in H53.
    change (2 ^ 1) with 2 in H2.
    nia.
Qed.

(** The floor division of a positive float by a larger one is [0.0]. *)
Lemma float_floor_div_small (x y : F64.float) :
  valid_binary F64.prec F64.emax x = true ->
  valid_binary F64.prec F64.emax y = true ->
  F64.ltb F64.zero x = true ->
  F64.ltb x y = true ->
  Py.float_floor_div x y = Ok F64.zero.
Proof.
  intros Vx Vy Px Lxy.
  destruct x as [sx | sx | | sx mx ex]; try discriminate.
  { destruct sx; [discriminate |].
    destruct y as [[] | [] | | [] my ey]; discriminate. }
  destruct sx; [discriminate |].
  destruct y as [sy | sy | | sy my ey]; try discriminate.
  - (* an infinite divisor *)
    destruct sy; [discriminate |].
    unfold Py.float_floor_div. cbn [F64.is_zero F64.fmod].
    rewrite sub_self. reflexivity.
  - destruct sy; [discriminate |].
    cbn [valid_binary] in Vx, Vy.
    pose proof (ltb_exact _ _ _ _ Vx Vy Lxy) as Hlt.
    unfold Py.float_floor_div. cbn [F64.is_zero].
    rewrite (fmod_small _ _ _ _ false Vx Hlt), sub_self.
    cbn -[F64.div].
    change (F64.div F64.zero (S754_finite false my ey)) with F64.zero.
    cbn [F64.is_zero F64.zero negb]. unfold F64.zero_with_sign_of.
    rewrite signbit_div_positive. reflexivity.
Qed.

Section Walk.

(** The C library's [pow]. *)
Variable libm_pow : F64.float -> F64.float -> F64.float * bool.

(** X14.  When the squared mean speed of a walk is a float above zero and
    below the height (at 180 cm: any speed under 13.4 km/h), the term
    [mean_speed ** 2 // height] is [0.0] and the calories are
    [(0.035 * weight + 0.0 * 0.029 * weight) * (duration * 60)]: the action
    count and the speed no longer enter them. *)
Theorem SportsWalking_speed_term_vanishes
    (a d wt ht : num) (out : list string) (v sq y : F64.float) :
  value get_mean_speed (mkWorld (a_SportsWalking a d wt ht) out)
  = Ok (PyFloat v) ->
  Py.pow_2 libm_pow (PyFloat v) = Ok (PyFloat sq) ->
  Py.to_float ht = Ok y ->
  valid_binary F64.prec F64.emax sq = true ->
  valid_binary F64.prec F64.emax y = true ->
  F64.ltb F64.zero sq = true ->
  F64.ltb sq y = true ->
  Py.floordiv (PyFloat sq) ht = Ok (PyFloat F64.zero)
  /\ value (get_spent_calories libm_pow)
       (mkWorld (a_SportsWalking a d wt ht) out)
     = walking_calories_with_term (PyFloat F64.zero) d wt.
Proof.
  intros Hv Hsq Hy Vs Vy Ps Lt.
  assert (Hfd : Py.floordiv (PyFloat sq) ht = Ok (PyFloat F64.zero)).
  { unfold Py.floordiv.
    destruct ht as [z | g]; cbn [Py.to_float] in *; rewrite Hy;
      cbn [rbind]; rewrite (float_floor_div_small _ _ Vs Vy Ps Lt);
      reflexivity. }
  split; [exact Hfd |].
  assert (Ev : value get_mean_speed (mkWorld (a_SportsWalking a d wt ht) out)
               = Spec.mean_speed a d) by (run_methods; reflexivity).
  assert (Ec : value (get_spent_calories libm_pow)
                 (mkWorld (a_SportsWalking a d wt ht) out)
               = Spec.walking_calories libm_pow a d wt ht)
    by (run_methods; reflexivity).
  rewrite Ev in Hv. rewrite Ec.
  unfold Spec.walking_calories, walking_calories_with_term.
  destruct (Py.mul (PyFloat (F64.literal 35 1000)) wt); [| reflexivity].
  cbn [rbind]. rewrite Hv. cbn [rbind]. rewrite Hsq. cbn [rbind].
  rewrite Hfd. reflexivity.
Qed.

End Walk.

(** ** The further properties at the inputs of the script *)

Lemma read_package_succeeds_iff_witness :
  read_package "RUN" [PyInt 15000; PyInt 1] = Raise TypeError.
Proof.
  apply (proj2 (proj2 (read_package_succeeds_iff "RUN" [PyInt 15000; PyInt 1]))
           Running); [reflexivity | discriminate].
Defined.

Lemma get_distance_uses_class_step_witness :
  value get_distance
    (mkWorld
       (a_Swimming (PyInt 720) (PyInt 1) (PyInt 80) (PyInt 25) (PyInt 40)) [])
  = distance_with_step (PyFloat (F64.literal 138 100)) (PyInt 720).
Proof.
  destruct (get_distance_uses_class_step "SWM"
              [PyInt 720; PyInt 1; PyInt 80; PyInt 25; PyInt 40]
              (a_Swimming (PyInt 720) (PyInt 1) (PyInt 80) (PyInt 25)
                 (PyInt 40))
              [] eq_refl) as (a & Ha & Hd & _).
  injection Ha as <-. exact Hd.
Defined.

Lemma mean_speed_is_distance_over_duration_witness :
  value get_mean_speed
    (mkWorld (a_SportsWalking (PyInt 9000) (PyInt 1) (PyInt 75) (PyInt 180)) [])
  = Spec.mean_speed (PyInt 9000) (PyInt 1).
Proof.
  destruct (mean_speed_is_distance_over_duration "WLK"
              [PyInt 9000; PyInt 1; PyInt 75; PyInt 180]
              (a_SportsWalking (PyInt 9000) (PyInt 1) (PyInt 75) (PyInt 180))
              [] eq_refl ltac:(discriminate)) as (a & d & Ha & Hd & _ & H).
  injection Ha as <-. injection Hd as <-. exact H.
Defined.

Lemma Swimming_get_spent_calories_formula_witness :
  value (get_spent_calories Py.libm_pow_ieee)
    (mkWorld
       (a_Swimming (PyInt 720) (PyInt 1) (PyInt 80) (PyInt 25) (PyInt 40)) [])
  = swimming_calories (PyInt 25) (PyInt 40) (PyInt 1) (PyInt 80).
Proof.
  apply (Swimming_get_spent_calories_formula Py.libm_pow_ieee
           (PyInt 720) (PyInt 0) (PyInt 1) (PyInt 80) (PyInt 25) (PyInt 40)
           [] [] eq_refl).
Defined.

Lemma base_show_training_info_fails_witness :
  value (show_training_info Py.libm_pow_ieee)
    (mkWorld
       (mkObject Training
          [("action", PyInt 15000); ("duration", PyInt 1);
           ("weight", PyInt 75)]) [])
  = Raise NotImplementedError.
Proof.
  apply (proj2 (base_show_training_info_fails Py.libm_pow_ieee _ _)
           (PyInt 1) (PyFloat (F64.literal 975 100))
           (PyFloat (F64.literal 975 100)));
    vm_compute; reflexivity.
Defined.

Lemma report_fails_with_arithmetic_only_witness :
  value (main Py.libm_pow_ieee)
    (mkWorld (a_Running (PyInt 15000) (PyInt 0) (PyInt 75)) [])
  = Raise ZeroDivisionError
  /\ arithmetic_error ZeroDivisionError.
Proof.
  split; [vm_compute; reflexivity |].
  apply (proj2 (report_fails_with_arithmetic_only Py.libm_pow_ieee "RUN"
                  [PyInt 15000; PyInt 0; PyInt 75]
                  (a_Running (PyInt 15000) (PyInt 0) (PyInt 75)) [] eq_refl)).
  vm_compute. reflexivity.
Defined.

Lemma main_prints_one_line_or_nothing_witness :
  self (snd (main Py.libm_pow_ieee
               (mkWorld (a_Running (PyInt 15000) (PyInt 1) (PyInt 75)) [])))
  = a_Running (PyInt 15000) (PyInt 1) (PyInt 75).
Proof.
  apply (proj1 (main_prints_one_line_or_nothing Py.libm_pow_ieee
                  (mkWorld (a_Running (PyInt 15000) (PyInt 1) (PyInt 75)) []))
           tt).
  vm_compute. reflexivity.
Defined.

Lemma script_runs_in_order_witness :
  exists msg,
    script Py.libm_pow_ieee
      ([("RUN", [PyInt 15000; PyInt 1; PyInt 75])]
       ++ ("BIKE", [PyInt 1]) :: [("WLK", [PyInt 9000; PyInt 1; PyInt 75; PyInt 180])])
      []
    = (Raise (ValueError msg),
       ["Тип тренировки: Running; Длительность: 1.000 ч.; Дистанция: 9.750 км; Ср. скорость: 9.750 км/ч; Потрачено ккал: 699.750."]).
Proof.
  apply (proj2 (proj2 (script_runs_in_order Py.libm_pow_ieee _ _ _ _)));
    [vm_compute; reflexivity | reflexivity].
Defined.

Lemma get_message_returns_iff_witness :
  exists line,
    InfoMessage_get_message
      (mkInfoMessage "Running" (PyInt 1) (PyFloat S754_nan)
         (PyFloat (S754_infinity true)) (PyFloat F64.zero))
    = Ok line.
Proof.
  apply (proj2 (proj1 (get_message_returns_iff _))).
  repeat split; reflexivity.
Defined.


Lemma SportsWalking_speed_term_vanishes_witness :
  value (get_spent_calories Py.libm_pow_ieee)
    (mkWorld (a_SportsWalking (PyInt 9000) (PyInt 1) (PyInt 75) (PyInt 180)) [])
  = walking_calories_with_term (PyFloat F64.zero) (PyInt 1) (PyInt 75).
Proof.
  apply (SportsWalking_speed_term_vanishes Py.libm_pow_ieee
           (PyInt 9000) (PyInt 1) (PyInt 75) (PyInt 180) []
           (F64.literal 585 100)
           (F64.mul (F64.literal 585 100) (F64.literal 585 100))
           (F64.of_Z 180));
    vm_compute; reflexivity.
Defined.
